(** * server-escuela: the request handlers of the three server variants

    A shallow embedding of the handler layer of the repository:

    - [Part000]  : the first users API   (src/unnamed/part_000),
    - [Part001]  : the hardened users API (src/unnamed/part_001),
    - [Resources]: the resources API      (src/server.js).

    The handlers are written against a small model of the JavaScript
    operations they use ([parseInt], [trim], [||], [??], [?.], [===],
    property access, [try]/[catch]) and against an abstract connection
    pool: the database, Express and the other middleware packages are
    external collaborators.

    Modelling conventions.
    - A JavaScript string is its list of UTF-16 code units.
    - A JavaScript number is modelled when it is an integer, a zero, a NaN
      or an infinity ([number]); numbers with a fractional part do not occur
      in what the handlers compute, and as request data they are left out.
      [Int z] stands for the double of value [z]; [parseInt10] rounds to
      binary64 the way the language prescribes, and [number_to_string]
      prints as the language prescribes: the shortest digits that denote
      the double, with an exponent from 10^21 on.
    - [await] is sequential composition: one request is handled at a time.
    - A handler is a computation over a [world]: the database behind the
      pool and the console, together with a record of the statements sent
      and of the errors the pool rejected them with. *)

From Stdlib Require Import ZArith NArith List String Ascii Bool Lia.
From Stdlib Require Import DecimalString DecimalPos.
Import ListNotations.

Local Open Scope Z_scope.
Set Warnings "-register-all".

(* ================================================================= *)
(** ** Strings *)

Definition jsstring := list N.

Definition jsstring_eq_dec : forall s t : jsstring, {s = t} + {s <> t} :=
  list_eq_dec N.eq_dec.

Definition jsstring_eqb (s t : jsstring) : bool :=
  if jsstring_eq_dec s t then true else false.

(** Source literals are written as Rocq strings (UTF-8) and decoded to code
    units; sequences of one to three bytes cover the Basic Multilingual
    Plane, which is all the source uses. *)
Fixpoint utf16_of_utf8 (bs : list N) : jsstring :=
  match bs with
  | [] => []
  | b1 :: t1 =>
      if (b1 <? 128)%N then b1 :: utf16_of_utf8 t1
      else
        match t1 with
        | [] => [b1]
        | b2 :: t2 =>
            if (b1 <? 224)%N
            then ((b1 - 192) * 64 + (b2 - 128))%N :: utf16_of_utf8 t2
            else
              match t2 with
              | [] => [b1; b2]
              | b3 :: t3 =>
                  ((b1 - 224) * 4096 + (b2 - 128) * 64 + (b3 - 128))%N
                    :: utf16_of_utf8 t3
              end
        end
  end.

Definition js (s : string) : jsstring :=
  utf16_of_utf8 (map N_of_ascii (list_ascii_of_string s)).

(** WhiteSpace and LineTerminator code units: what [trim] strips and what
    [parseInt] skips. *)
Definition is_white_space (c : N) : bool :=
  ((9 <=? c) && (c <=? 13) || (c =? 32) || (c =? 160) || (c =? 5760)
   || (8192 <=? c) && (c <=? 8202) || (c =? 8232) || (c =? 8233)
   || (c =? 8239) || (c =? 8287) || (c =? 12288) || (c =? 65279))%N.

Fixpoint trimStart (s : jsstring) : jsstring :=
  match s with
  | c :: t => if is_white_space c then trimStart t else s
  | [] => []
  end.

Definition trimEnd (s : jsstring) : jsstring := rev (trimStart (rev s)).

Definition trim (s : jsstring) : jsstring := trimEnd (trimStart s).

(* ================================================================= *)
(** ** Numbers *)

Inductive number : Type :=
| NaN
| Infinity (negative : bool)
| NegZero
| Int (z : Z).

Definition number_eq_dec : forall m n : number, {m = n} + {m <> n}.
Proof. decide equality; [apply Bool.bool_dec | apply Z.eq_dec]. Defined.

(** IEEE equality of the modelled numbers, as [===] uses it. *)
Definition number_equal (m n : number) : bool :=
  match m, n with
  | NaN, _ | _, NaN => false
  | Infinity a, Infinity b => Bool.eqb a b
  | NegZero, NegZero => true
  | NegZero, Int z | Int z, NegZero => z =? 0
  | Int a, Int b => a =? b
  | _, _ => false
  end.

(** The double nearest to a positive integer [m] (ties to even), or [None]
    when it overflows to an infinity. *)
Definition round_magnitude (m : Z) : option Z :=
  if m <? 2 ^ 53 then Some m
  else
    let sh := Z.log2 m - 52 in
    let q := Z.shiftr m sh in
    let r := m - Z.shiftl q sh in
    let half := Z.shiftl 1 (sh - 1) in
    let q' := if (half <? r) || ((r =? half) && Z.odd q) then q + 1 else q in
    let v := Z.shiftl q' sh in
    if v <? 2 ^ 1024 then Some v else None.

(** The decimal digits of a natural number. *)
Definition decimal (m : Z) : jsstring := js (NilZero.string_of_int (Z.to_int m)).

(** Whether the decimal numeral of value [c] denotes the double [m]. *)
Definition denotes (m c : Z) : bool :=
  match round_magnitude c with
  | Some v => v =? m
  | None => false
  end.

(** Among the multiples of [p] on either side of [m], the one nearest to
    [m] that denotes it (the even one of two equally near), if any. *)
Definition nearest_multiple (m p : Z) : option Z :=
  let s := m / p in
  let lo := s * p in
  let hi := lo + p in
  match denotes m lo, denotes m hi with
  | true, true =>
      Some (if m - lo <? hi - m then lo
            else if hi - m <? m - lo then hi
            else if Z.even s then lo else hi)
  | true, false => Some lo
  | false, true => Some hi
  | false, false => None
  end.

(** The numeral with the fewest significant digits that denotes [m]: a
    multiple of [p] if there is one, else of [p / 10], and so on down to
    the units. *)
Fixpoint shortest (fuel : nat) (m p : Z) : Z :=
  match fuel with
  | O => m
  | S fuel' =>
      match nearest_multiple m p with
      | Some c => c
      | None => shortest fuel' m (p / 10)
      end
  end.

Fixpoint drop_zeros (s : jsstring) : jsstring :=
  match s with
  | 48%N :: t => drop_zeros t
  | _ => s
  end.

(** Number::toString on a double beyond 2^53: its shortest digits, written
    out with the zeros that follow them up to 21 digits
    ([18446744073709552000] for 2^64) and with an exponent from there on
    ([1e+21], [1.5e+21]). *)
Definition large_to_string (m : Z) : jsstring :=
  let n := List.length (decimal m) in
  let c := shortest n m (10 ^ (Z.of_nat n - 1)) in
  let digits := decimal c in
  let n := List.length digits in
  if (n <=? 21)%nat then digits
  else
    match rev (drop_zeros (rev digits)) with
    | [] => digits
    | [d] => d :: js "e+" ++ decimal (Z.of_nat n - 1)
    | d :: more => d :: js "." ++ more ++ js "e+" ++ decimal (Z.of_nat n - 1)
    end.

(** Number::toString.  Up to 2^53 every integer is a double, and the
    digits that denote it are its own. *)
Definition number_to_string (n : number) : jsstring :=
  match n with
  | NaN => js "NaN"
  | Infinity false => js "Infinity"
  | Infinity true => js "-Infinity"
  | NegZero => js "0"
  | Int z =>
      if Z.abs z <=? 2 ^ 53 then js (NilZero.string_of_int (Z.to_int z))
      else if z <? 0 then js "-" ++ large_to_string (- z)
      else large_to_string z
  end.

(* ================================================================= *)
(** ** parseInt(string, 10) on a string *)

Definition is_digit (c : N) : bool := ((48 <=? c) && (c <=? 57))%N.

Fixpoint take_digits (s : jsstring) : jsstring :=
  match s with
  | c :: t => if is_digit c then c :: take_digits t else []
  | [] => []
  end.

Definition digits_value (ds : jsstring) : Z :=
  fold_left (fun acc c => acc * 10 + (Z.of_N c - 48)) ds 0.

Definition strip_sign (s : jsstring) : bool * jsstring :=
  match s with
  | 45%N :: t => (true, t)
  | 43%N :: t => (false, t)
  | _ => (false, s)
  end.

Definition parseInt10 (input : jsstring) : number :=
  let (negative, s) := strip_sign (trimStart input) in
  match take_digits s with
  | [] => NaN
  | ds =>
      let m := digits_value ds in
      if m =? 0 then (if negative then NegZero else Int 0)
      else
        match round_magnitude m with
        | Some v => Int (if negative then - v else v)
        | None => Infinity negative
        end
  end.

(* ================================================================= *)
(** ** Values, errors and completions *)

Inductive jsval : Type :=
| VUndefined
| VNull
| VBool (b : bool)
| VNum (n : number)
| VStr (s : jsstring)
| VArr (elems : list jsval)
| VObj (props : list (jsstring * jsval)).

Definition object := list (jsstring * jsval).

Record jserror : Type := { err_name : jsstring; err_message : jsstring }.

Definition TypeError (message : string) : jserror :=
  {| err_name := js "TypeError"; err_message := js message |}.

(** What evaluating an expression gives: a value, or a thrown error. *)
Inductive completion (A : Type) : Type :=
| Normal (a : A)
| Throw (e : jserror).
Arguments Normal {A} a.
Arguments Throw {A} e.

Definition cbind {A B} (c : completion A) (k : A -> completion B) : completion B :=
  match c with
  | Normal a => k a
  | Throw e => Throw e
  end.

Fixpoint lookup (key : jsstring) (o : object) : option jsval :=
  match o with
  | [] => None
  | (k, v) :: rest => if jsstring_eqb k key then Some v else lookup key rest
  end.

Definition is_nullish (v : jsval) : bool :=
  match v with
  | VUndefined | VNull => true
  | _ => false
  end.

(** [a ?? b] *)
Definition nullish_or (a b : jsval) : jsval := if is_nullish a then b else a.

Definition ToBoolean (v : jsval) : bool :=
  match v with
  | VUndefined | VNull => false
  | VBool b => b
  | VNum NaN | VNum NegZero => false
  | VNum (Int z) => negb (z =? 0)
  | VNum (Infinity _) => true
  | VStr s => match s with [] => false | _ => true end
  | VArr _ | VObj _ => true
  end.

(** [a || b] *)
Definition js_or (a b : jsval) : jsval := if ToBoolean a then a else b.

(** [o.name] for the names the handlers read ([id], [name], [title],
    [affectedRows], ...): none of them lives on a prototype, so the value
    is the own property or [undefined]; reading from [undefined] or [null]
    throws. *)
Definition get_prop (v : jsval) (name : string) : completion jsval :=
  match v with
  | VUndefined | VNull => Throw (TypeError "Cannot read properties of undefined")
  | VObj props =>
      match lookup (js name) props with
      | Some x => Normal x
      | None => Normal VUndefined
      end
  | VArr l =>
      if String.eqb name "length" then Normal (VNum (Int (Z.of_nat (List.length l))))
      else Normal VUndefined
  | VStr s =>
      if String.eqb name "length" then Normal (VNum (Int (Z.of_nat (List.length s))))
      else Normal VUndefined
  | VBool _ | VNum _ => Normal VUndefined
  end.

(** [o?.name] *)
Definition opt_prop (v : jsval) (name : string) : completion jsval :=
  if is_nullish v then Normal VUndefined else get_prop v name.

(** [o[0]] *)
Definition get_first (v : jsval) : completion jsval :=
  match v with
  | VUndefined | VNull => Throw (TypeError "Cannot read properties of undefined")
  | VArr l => Normal (nth 0 l VUndefined)
  | VObj props =>
      match lookup (js "0") props with
      | Some x => Normal x
      | None => Normal VUndefined
      end
  | VStr s => Normal (match s with c :: _ => VStr [c] | [] => VUndefined end)
  | VBool _ | VNum _ => Normal VUndefined
  end.

(** [o?.[0]] *)
Definition opt_first (v : jsval) : completion jsval :=
  if is_nullish v then Normal VUndefined else get_first v.

(** [v.trim()]: only a string has the method; a value parsed from JSON or
    from a query string never holds a function. *)
Definition call_trim (v : jsval) : completion jsval :=
  match v with
  | VStr s => Normal (VStr (trim s))
  | VUndefined | VNull => Throw (TypeError "Cannot read properties of undefined")
  | _ => Throw (TypeError "trim is not a function")
  end.

(** [a === b] for the comparisons of the source, whose right operand is a
    number literal: two distinct objects are never equal. *)
Definition strict_equals (a b : jsval) : bool :=
  match a, b with
  | VUndefined, VUndefined | VNull, VNull => true
  | VBool x, VBool y => Bool.eqb x y
  | VNum m, VNum n => number_equal m n
  | VStr s, VStr t => jsstring_eqb s t
  | _, _ => false
  end.

(** ToString.  An array joins its elements with commas; an object prints
    as [[object Object]] unless it has an own [toString] property, which in
    request data is never callable, and then the conversion throws. *)
Fixpoint ToString (v : jsval) : completion jsstring :=
  match v with
  | VUndefined => Normal (js "undefined")
  | VNull => Normal (js "null")
  | VBool true => Normal (js "true")
  | VBool false => Normal (js "false")
  | VNum n => Normal (number_to_string n)
  | VStr s => Normal s
  | VArr l =>
      (fix join (l : list jsval) : completion jsstring :=
         match l with
         | [] => Normal []
         | x :: rest =>
             cbind (if is_nullish x then Normal [] else ToString x) (fun sx =>
             match rest with
             | [] => Normal sx
             | _ => cbind (join rest) (fun sr => Normal (sx ++ js "," ++ sr))
             end)
         end) l
  | VObj props =>
      match lookup (js "toString") props with
      | Some _ => Throw (TypeError "Cannot convert object to primitive value")
      | None => Normal (js "[object Object]")
      end
  end.

(** [parseInt(v, 10)] *)
Definition parseInt (v : jsval) : completion number :=
  cbind (ToString v) (fun s => Normal (parseInt10 s)).

(** [Number.isInteger(v)] *)
Definition Number_isInteger (v : jsval) : bool :=
  match v with
  | VNum (Int _) | VNum NegZero => true
  | _ => false
  end.

(** [Number.isNaN(v)] *)
Definition Number_isNaN (v : jsval) : bool :=
  match v with
  | VNum NaN => true
  | _ => false
  end.

(* ================================================================= *)
(** ** The connection pool *)

(** [pool.query(sql, values)] and [pool.execute(sql, values)] send one
    statement to the database.  The promise resolves to [[result, fields]],
    of which every handler keeps [result] (the rows of a SELECT, the header
    of a write), or it rejects with the driver's error. *)
Inductive pool_method : Type := Query | Execute.

Record statement : Type :=
  { via : pool_method; sql : string; values : list jsval }.

Inductive outcome : Type :=
| Resolved (result : jsval)
| Rejected (e : jserror).

(** The database is external: a pool is any state with a transition per
    statement. *)
Class Pool : Type :=
  { database : Type;
    run_statement : database -> statement -> outcome * database }.

(* ================================================================= *)
(** ** Handlers as state-and-exception computations *)

Record request : Type :=
  { params : object; query : object; body : jsval }.

Record response : Type := { status : Z; payload : jsval }.

(** [o.name] on [req.params] and [req.query], which are always objects. *)
Definition member (o : object) (name : string) : jsval :=
  match lookup (js name) o with
  | Some v => v
  | None => VUndefined
  end.

Section Monad.
Context {pool : Pool}.

(** What a handler can change: the database and the lines written with
    [console.error]; and, to speak about a run afterwards, the statements
    it sent (in order) and the errors the pool rejected them with. *)
Record world : Type :=
  { db : database;
    issued : list statement;
    rejected : list jserror;
    console : list (string * jserror) }.

Definition M (A : Type) : Type := world -> completion A * world.

Definition ret {A} (a : A) : M A := fun w => (Normal a, w).

Definition bind {A B} (m : M A) (k : A -> M B) : M B :=
  fun w =>
    match m w with
    | (Normal a, w') => k a w'
    | (Throw e, w') => (Throw e, w')
    end.

Definition lift {A} (c : completion A) : M A := fun w => (c, w).

(** [try { m } catch (err) { h err }] *)
Definition try_catch {A} (m : M A) (h : jserror -> M A) : M A :=
  fun w =>
    match m w with
    | (Normal a, w') => (Normal a, w')
    | (Throw e, w') => h e w'
    end.

Definition send (m : pool_method) (text : string) (args : list jsval) : M jsval :=
  fun w =>
    let st := {| via := m; sql := text; values := args |} in
    let (o, d) := run_statement (db w) st in
    match o with
    | Resolved v =>
        (Normal v,
         {| db := d; issued := issued w ++ [st]; rejected := rejected w;
            console := console w |})
    | Rejected e =>
        (Throw e,
         {| db := d; issued := issued w ++ [st]; rejected := rejected w ++ [e];
            console := console w |})
    end.

Definition pool_query := send Query.
Definition pool_execute := send Execute.

Definition console_error (label : string) (err : jserror) : M unit :=
  fun w =>
    (Normal tt,
     {| db := db w; issued := issued w; rejected := rejected w;
        console := console w ++ [(label, err)] |}).

(** [res.status(code).json(value)]; [res.json(value)] is [json 200 value]. *)
Definition json (code : Z) (value : jsval) : M response :=
  ret {| status := code; payload := value |}.

Definition handler : Type := request -> M response.
End Monad.

Notation "x <- m ;; k" := (bind m (fun x => k))
  (at level 61, m at next level, right associativity).
Notation "m ;;; k" := (bind m (fun _ => k))
  (at level 61, right associativity).
Notation "'let*' x := c 'in' k" := (cbind c (fun x => k))
  (at level 61, x name, c at next level, right associativity).

(** Object literals. *)
Definition field (name : string) (v : jsval) : jsstring * jsval := (js name, v).
Definition str (s : string) : jsval := VStr (js s).
Definition num (z : Z) : jsval := VNum (Int z).

(** [Error.prototype.toString]. *)
Definition error_to_string (e : jserror) : jsstring :=
  match err_name e, err_message e with
  | n, [] => n
  | [], m => m
  | n, m => n ++ js ": " ++ m
  end.

(** [a ?? b], the right operand evaluated only when needed. *)
Definition coalesce (a : jsval) (b : completion jsval) : completion jsval :=
  if is_nullish a then b else Normal a.

(** The helper of both users variants (part_000 lines 41-45, part_001 lines
    72-76, the same text):
    [raw = req.params.id ?? req.query.id ?? req.body?.id]. *)
Definition getId (req : request) : completion jsval :=
  let* left := coalesce (member (params req) "id") (Normal (member (query req) "id")) in
  let* raw := coalesce left (opt_prop (body req) "id") in
  let* id := parseInt raw in
  Normal (if Number_isInteger (VNum id) then VNum id else VNull).

(** [(req.body?.name || "").trim()] *)
Definition body_name (req : request) : completion jsval :=
  let* n := opt_prop (body req) "name" in
  call_trim (js_or n (VStr [])).

(* ================================================================= *)
(** ** Routing *)

Inductive http_method : Type := GET | POST | PUT | PATCH | DELETE | OPTIONS | HEAD.

Definition http_method_eqb (a b : http_method) : bool :=
  match a, b with
  | GET, GET | POST, POST | PUT, PUT | PATCH, PATCH
  | DELETE, DELETE | OPTIONS, OPTIONS | HEAD, HEAD => true
  | _, _ => false
  end.

(** An incoming request after Express and [express.json()] have parsed it:
    the path as its non-empty segments, the parsed query string and the
    parsed body.  A segment is the text between two slashes as Express
    hands it on; percent-escapes in the path are left out of the model. *)
Record http_request : Type :=
  { method : http_method;
    path : list jsstring;
    url_query : object;
    json_body : jsval }.

(** The route paths of the source: a fixed path such as [/users], a path
    with one parameter such as [/api/resources/:id], and one whose parameter
    may be missing such as [/users/:id?]. *)
Inductive route_path : Type :=
| Fixed (segments : list string)
| WithId (segments : list string)
| WithOptionalId (segments : list string).

(** Express compares the fixed part of a route path without regard to
    case: [case sensitive routing] is off unless a program turns it on, and
    none of the variants does.  The comparison is that of a regular
    expression with the flag [i], under which the letters [a]-[z] of a route
    stand for themselves and for [A]-[Z], and for no other code unit. *)
Definition fold_case (c : N) : N :=
  if ((97 <=? c) && (c <=? 122))%N then (c - 32)%N else c.

Definition same_segment (s : string) (x : jsstring) : bool :=
  jsstring_eqb (map fold_case (js s)) (map fold_case x).

Fixpoint strip_prefix (segments : list string) (p : list jsstring) : option (list jsstring) :=
  match segments, p with
  | [], rest => Some rest
  | s :: segments', x :: p' =>
      if same_segment s x then strip_prefix segments' p' else None
  | _ :: _, [] => None
  end.

(** [req.params] when the route matches. *)
Definition match_path (rp : route_path) (p : list jsstring) : option object :=
  match rp with
  | Fixed segs =>
      match strip_prefix segs p with
      | Some [] => Some []
      | _ => None
      end
  | WithId segs =>
      match strip_prefix segs p with
      | Some [x] => Some [field "id" (VStr x)]
      | _ => None
      end
  | WithOptionalId segs =>
      match strip_prefix segs p with
      | Some [] => Some [field "id" VUndefined]
      | Some [x] => Some [field "id" (VStr x)]
      | _ => None
      end
  end.

Section Routing.
Context {pool : Pool}.

(** [app.get(path, h)], [app.put(path, h)], ...: one binding of a handler
    to a method and a path. *)
Record route : Type :=
  { route_method : http_method; route_at : route_path; route_handler : handler }.

(** A route takes the requests of the method it was bound with, and one
    bound with [app.get] takes the [HEAD] requests as well: none of the
    variants binds a route with [app.head]. *)
Definition takes (bound asked : http_method) : bool :=
  http_method_eqb bound asked
  || (http_method_eqb bound GET && http_method_eqb asked HEAD).

(** What [res.send] writes, [res.json] and [res.sendStatus] going through
    it: the answer to a [HEAD] request keeps its status and goes without
    its body, for which [undefined] stands. *)
Definition written (asked : http_method) (res : response) : response :=
  match asked with
  | HEAD => {| status := status res; payload := VUndefined |}
  | _ => res
  end.

(** The first matching route answers; [None] when no route of the
    application matches and Express falls through to what follows. *)
Fixpoint dispatch (routes : list route) (r : http_request) : M (option response) :=
  match routes with
  | [] => ret None
  | rt :: rest =>
      if takes (route_method rt) (method r) then
        match match_path (route_at rt) (path r) with
        | Some ps =>
            res <- route_handler rt
                     {| params := ps; query := url_query r; body := json_body r |} ;;
            ret (Some (written (method r) res))
        | None => dispatch rest r
        end
      else dispatch rest r
  end.
End Routing.

(* ================================================================= *)
(** ** src/unnamed/part_000 *)

Module Part000.
Section Handlers.
Context {pool : Pool}.

(** [app.get("/users")], lines 48-55. *)
Definition getUsers : handler := fun _ =>
  try_catch
    (rows <- pool_query "SELECT id, name FROM users ORDER BY id DESC" [] ;;
     json 200 rows)
    (fun err =>
       let detail :=
         match err_message err with
         | [] => error_to_string err
         | m => m
         end in
       json 500 (VObj [field "error" (VStr (js "Error de conexión: " ++ detail))])).

(** [app.post("/users")], lines 58-74. *)
Definition postUsers : handler := fun req =>
  try_catch
    (name <- lift (body_name req) ;;
     if negb (ToBoolean name) then
       json 400 (VObj [field "success" (VBool false);
                       field "error" (str "Nombre no válido")])
     else
       result <- pool_execute "INSERT INTO users (name) VALUES (?)" [name] ;;
       affectedRows <- lift (get_prop result "affectedRows") ;;
       if strict_equals affectedRows (num 1) then
         json 200 (VObj [field "success" (VBool true);
                         field "message" (str "Usuario agregado correctamente")])
       else
         json 500 (VObj [field "success" (VBool false);
                         field "error" (str "Error al insertar usuario")]))
    (fun _ =>
       json 500 (VObj [field "success" (VBool false);
                       field "error" (str "Error al insertar usuario")])).

(** [updateUserHandler], lines 77-104. *)
Definition updateUserHandler : handler := fun req =>
  try_catch
    (id <- lift (getId req) ;;
     name <- lift (body_name req) ;;
     if negb (Number_isInteger id) then
       json 400 (VObj [field "success" (VBool false);
                       field "error" (str "ID no proporcionado")])
     else if negb (ToBoolean name) then
       json 400 (VObj [field "success" (VBool false);
                       field "error" (str "Nombre no válido")])
     else
       result <- pool_execute "UPDATE users SET name = ? WHERE id = ?" [name; id] ;;
       affectedRows <- lift (get_prop result "affectedRows") ;;
       if strict_equals affectedRows (num 1) then
         rows <- pool_execute "SELECT id, name FROM users WHERE id = ?" [id] ;;
         first <- lift (get_first rows) ;;
         json 200 (VObj [field "success" (VBool true);
                         field "message" (str "Usuario actualizado correctamente");
                         field "user"
                           (js_or first (VObj [field "id" id; field "name" name]))])
       else
         json 404 (VObj [field "success" (VBool false);
                         field "error" (str "Usuario no encontrado")]))
    (fun _ =>
       json 500 (VObj [field "success" (VBool false);
                       field "error" (str "Error al actualizar usuario")])).

(** [app.delete("/users/:id?")], lines 109-125. *)
Definition deleteUsers : handler := fun req =>
  try_catch
    (id <- lift (getId req) ;;
     if negb (Number_isInteger id) then
       json 400 (VObj [field "success" (VBool false);
                       field "error" (str "ID no proporcionado")])
     else
       result <- pool_execute "DELETE FROM users WHERE id = ?" [id] ;;
       affectedRows <- lift (get_prop result "affectedRows") ;;
       if strict_equals affectedRows (num 1) then
         json 200 (VObj [field "success" (VBool true);
                         field "message" (str "Usuario eliminado correctamente")])
       else
         json 404 (VObj [field "success" (VBool false);
                         field "error" (str "Usuario no encontrado")]))
    (fun _ =>
       json 500 (VObj [field "success" (VBool false);
                       field "error" (str "Error al eliminar usuario")])).

(** The route bindings, in the order of the file (lines 48, 58, 105, 106,
    109). *)
Definition routes : list route :=
  [ {| route_method := GET; route_at := Fixed ["users"]; route_handler := getUsers |};
    {| route_method := POST; route_at := Fixed ["users"]; route_handler := postUsers |};
    {| route_method := PUT; route_at := WithOptionalId ["users"];
       route_handler := updateUserHandler |};
    {| route_method := PATCH; route_at := WithOptionalId ["users"];
       route_handler := updateUserHandler |};
    {| route_method := DELETE; route_at := WithOptionalId ["users"];
       route_handler := deleteUsers |} ]%string.

(** The application: an [OPTIONS] request is answered with status 204 and
    no body before the routes, by [cors()] (line 10) and, were it to pass,
    by the [sendStatus(204)] of line 17; every other request goes on to the
    routes.  (The response headers set in lines 13-16 do not depend on the
    request and are left out.) *)
Definition app (r : http_request) : M (option response) :=
  if http_method_eqb (method r) OPTIONS
  then ret (Some {| status := 204; payload := VUndefined |})
  else dispatch routes r.
End Handlers.
End Part000.

(* ================================================================= *)
(** ** src/unnamed/part_001 *)

Module Part001.
Section Handlers.
Context {pool : Pool}.

(** [app.get("/healthz")], lines 83-90: [ok: r?.[0]?.ok === 1]. *)
Definition healthz : handler := fun _ =>
  try_catch
    (r <- pool_query "SELECT 1 AS ok" [] ;;
     first <- lift (opt_first r) ;;
     ok <- lift (opt_prop first "ok") ;;
     json 200 (VObj [field "ok" (VBool (strict_equals ok (num 1)))]))
    (fun _ => json 503 (VObj [field "ok" (VBool false)])).

(** [app.get("/users")], lines 93-100. *)
Definition getUsers : handler := fun _ =>
  try_catch
    (rows <- pool_query "SELECT id, name FROM users ORDER BY id DESC" [] ;;
     json 200 rows)
    (fun _ => json 500 (VObj [field "error" (str "Error interno")])).

(** [app.post("/users")], lines 103-116. *)
Definition postUsers : handler := fun req =>
  try_catch
    (name <- lift (body_name req) ;;
     if negb (ToBoolean name) then
       json 400 (VObj [field "success" (VBool false);
                       field "error" (str "Nombre no válido")])
     else
       result <- pool_execute "INSERT INTO users (name) VALUES (?)" [name] ;;
       affectedRows <- lift (get_prop result "affectedRows") ;;
       if strict_equals affectedRows (num 1) then
         json 200 (VObj [field "success" (VBool true);
                         field "message" (str "Usuario agregado correctamente")])
       else
         json 500 (VObj [field "success" (VBool false);
                         field "error" (str "No se pudo insertar")]))
    (fun _ =>
       json 500 (VObj [field "success" (VBool false);
                       field "error" (str "Error interno")])).

(** [updateUserHandler], lines 119-136. *)
Definition updateUserHandler : handler := fun req =>
  try_catch
    (id <- lift (getId req) ;;
     name <- lift (body_name req) ;;
     if negb (Number_isInteger id) then
       json 400 (VObj [field "success" (VBool false);
                       field "error" (str "ID no proporcionado")])
     else if negb (ToBoolean name) then
       json 400 (VObj [field "success" (VBool false);
                       field "error" (str "Nombre no válido")])
     else
       result <- pool_execute "UPDATE users SET name = ? WHERE id = ?" [name; id] ;;
       affectedRows <- lift (get_prop result "affectedRows") ;;
       if strict_equals affectedRows (num 1) then
         rows <- pool_execute "SELECT id, name FROM users WHERE id = ?" [id] ;;
         first <- lift (get_first rows) ;;
         json 200 (VObj [field "success" (VBool true);
                         field "message" (str "Usuario actualizado correctamente");
                         field "user"
                           (js_or first (VObj [field "id" id; field "name" name]))])
       else
         json 404 (VObj [field "success" (VBool false);
                         field "error" (str "Usuario no encontrado")]))
    (fun _ =>
       json 500 (VObj [field "success" (VBool false);
                       field "error" (str "Error interno")])).

(** [app.delete("/users/:id?")], lines 141-154. *)
Definition deleteUsers : handler := fun req =>
  try_catch
    (id <- lift (getId req) ;;
     if negb (Number_isInteger id) then
       json 400 (VObj [field "success" (VBool false);
                       field "error" (str "ID no proporcionado")])
     else
       result <- pool_execute "DELETE FROM users WHERE id = ?" [id] ;;
       affectedRows <- lift (get_prop result "affectedRows") ;;
       if strict_equals affectedRows (num 1) then
         json 200 (VObj [field "success" (VBool true);
                         field "message" (str "Usuario eliminado correctamente")])
       else
         json 404 (VObj [field "success" (VBool false);
                         field "error" (str "Usuario no encontrado")]))
    (fun _ =>
       json 500 (VObj [field "success" (VBool false);
                       field "error" (str "Error interno")])).

(** The route bindings (lines 83, 93, 103, 137, 138, 141).  The rate
    limiter, [helmet] and [cors] in front of them are packages outside
    the repository. *)
Definition routes : list route :=
  [ {| route_method := GET; route_at := Fixed ["healthz"]; route_handler := healthz |};
    {| route_method := GET; route_at := Fixed ["users"]; route_handler := getUsers |};
    {| route_method := POST; route_at := Fixed ["users"]; route_handler := postUsers |};
    {| route_method := PUT; route_at := WithOptionalId ["users"];
       route_handler := updateUserHandler |};
    {| route_method := PATCH; route_at := WithOptionalId ["users"];
       route_handler := updateUserHandler |};
    {| route_method := DELETE; route_at := WithOptionalId ["users"];
       route_handler := deleteUsers |} ]%string.

(** What a request meets once those packages have let it through ([cors]
    answers an [OPTIONS] request itself, the rate limiter the requests
    beyond its limit). *)
Definition app (r : http_request) : M (option response) := dispatch routes r.
End Handlers.
End Part001.

(* ================================================================= *)
(** ** src/server.js *)

Module Resources.

Definition SELECT_ALL : string :=
  "SELECT id, title, description, url, type, platform, created_at FROM resources ORDER BY created_at DESC".

Definition INSERT : string := "
      INSERT INTO resources (title, description, url, type, platform)
      VALUES (?, ?, ?, ?, ?)
    ".

Definition SELECT_BY_ID : string :=
  "SELECT id, title, description, url, type, platform, created_at FROM resources WHERE id = ?".

Definition DELETE_BY_ID : string := "DELETE FROM resources WHERE id = ?".

Section Handlers.
Context {pool : Pool}.

(** [app.get("/api/resources")], lines 59-69. *)
Definition getResources : handler := fun _ =>
  try_catch
    (rows <- pool_query SELECT_ALL [] ;;
     json 200 rows)
    (fun err =>
       console_error "Error al obtener recursos:" err ;;;
       json 500 (VObj [field "message" (str "Error al obtener los recursos")])).

(** [app.post("/api/resources")], lines 72-108.  The destructuring of
    [req.body] reads the five properties and throws when the body is
    [undefined]. *)
Definition postResources : handler := fun req =>
  try_catch
    (title <- lift (get_prop (body req) "title") ;;
     description <- lift (get_prop (body req) "description") ;;
     url <- lift (get_prop (body req) "url") ;;
     type <- lift (get_prop (body req) "type") ;;
     platform <- lift (get_prop (body req) "platform") ;;
     if negb (ToBoolean title) || negb (ToBoolean url) then
       json 400 (VObj [field "message" (str "El título y la URL son obligatorios")])
     else
       a1 <- lift (call_trim title) ;;
       a2 <- lift (call_trim (js_or description (VStr []))) ;;
       a3 <- lift (call_trim url) ;;
       a4 <- lift (call_trim (js_or type (str "Otro"))) ;;
       a5 <- lift (call_trim (js_or platform (str "Otro"))) ;;
       result <- pool_query INSERT [a1; a2; a3; a4; a5] ;;
       insertedId <- lift (get_prop result "insertId") ;;
       rows <- pool_query SELECT_BY_ID [insertedId] ;;
       first <- lift (get_first rows) ;;
       json 201 first)
    (fun err =>
       console_error "Error al crear recurso:" err ;;;
       json 500 (VObj [field "message" (str "Error al crear el recurso")])).

(** [app.delete("/api/resources/:id")], lines 111-132. *)
Definition deleteResources : handler := fun req =>
  try_catch
    (id <- lift (parseInt (member (params req) "id")) ;;
     if Number_isNaN (VNum id) then
       json 400 (VObj [field "message" (str "ID inválido")])
     else
       result <- pool_query DELETE_BY_ID [VNum id] ;;
       affectedRows <- lift (get_prop result "affectedRows") ;;
       if strict_equals affectedRows (num 0) then
         json 404 (VObj [field "message" (str "Recurso no encontrado")])
       else
         json 200 (VObj [field "message" (str "Recurso eliminado correctamente")]))
    (fun err =>
       console_error "Error al eliminar recurso:" err ;;;
       json 500 (VObj [field "message" (str "Error al eliminar el recurso")])).
End Handlers.
End Resources.

(* ================================================================= *)
(** ** A reference database

    An in-memory pool with the two tables, used to run the handlers on
    concrete requests.  Rows are kept most recent first; identifiers are
    handed out in increasing order; [failure] makes every statement reject
    with the given error, as an unreachable server does. *)

Module Mem.

Record user_row : Type := { user_id : Z; user_name : jsstring }.

Record resource_row : Type :=
  { res_id : Z;
    res_title : jsstring;
    res_description : jsstring;
    res_url : jsstring;
    res_type : jsstring;
    res_platform : jsstring;
    res_created_at : Z }.

Record state : Type :=
  { users : list user_row;
    resources : list resource_row;
    next_user_id : Z;
    next_resource_id : Z;
    clock : Z;
    failure : option jserror }.

Definition user_json (u : user_row) : jsval :=
  VObj [field "id" (num (user_id u)); field "name" (VStr (user_name u))].

Definition resource_json (r : resource_row) : jsval :=
  VObj [field "id" (num (res_id r));
        field "title" (VStr (res_title r));
        field "description" (VStr (res_description r));
        field "url" (VStr (res_url r));
        field "type" (VStr (res_type r));
        field "platform" (VStr (res_platform r));
        field "created_at" (num (res_created_at r))].

Definition header (affected insertId : Z) : jsval :=
  VObj [field "affectedRows" (num affected); field "insertId" (num insertId)].

Definition sql_error (message : string) : jserror :=
  {| err_name := js "Error"; err_message := js message |}.

Definition count {A} (p : A -> bool) (l : list A) : Z :=
  Z.of_nat (List.length (filter p l)).

Definition with_users (s : state) (us : list user_row) (next : Z) : state :=
  {| users := us; resources := resources s; next_user_id := next;
     next_resource_id := next_resource_id s; clock := clock s;
     failure := failure s |}.

Definition with_resources (s : state) (rs : list resource_row) (next : Z) : state :=
  {| users := users s; resources := rs; next_user_id := next_user_id s;
     next_resource_id := next; clock := clock s + 1; failure := failure s |}.

Definition run (s : state) (st : statement) : outcome * state :=
  match failure s with
  | Some e => (Rejected e, s)
  | None =>
      let text := sql st in
      if String.eqb text "SELECT 1 AS ok" then
        (Resolved (VArr [VObj [field "ok" (num 1)]]), s)
      else if String.eqb text "SELECT id, name FROM users ORDER BY id DESC" then
        (Resolved (VArr (map user_json (users s))), s)
      else if String.eqb text "INSERT INTO users (name) VALUES (?)" then
        match values st with
        | [VStr name] =>
            let id := next_user_id s in
            (Resolved (header 1 id),
             with_users s ({| user_id := id; user_name := name |} :: users s) (id + 1))
        | _ => (Rejected (sql_error "Incorrect arguments"), s)
        end
      else if String.eqb text "UPDATE users SET name = ? WHERE id = ?" then
        match values st with
        | [VStr name; VNum (Int id)] =>
            let hit u := user_id u =? id in
            (Resolved (header (count hit (users s)) 0),
             with_users s
               (map (fun u => if hit u then {| user_id := id; user_name := name |} else u)
                    (users s))
               (next_user_id s))
        | _ => (Rejected (sql_error "Incorrect arguments"), s)
        end
      else if String.eqb text "SELECT id, name FROM users WHERE id = ?" then
        match values st with
        | [VNum (Int id)] =>
            (Resolved (VArr (map user_json (filter (fun u => user_id u =? id) (users s)))), s)
        | _ => (Rejected (sql_error "Incorrect arguments"), s)
        end
      else if String.eqb text "DELETE FROM users WHERE id = ?" then
        match values st with
        | [VNum (Int id)] =>
            let hit u := user_id u =? id in
            (Resolved (header (count hit (users s)) 0),
             with_users s (filter (fun u => negb (hit u)) (users s)) (next_user_id s))
        | _ => (Rejected (sql_error "Incorrect arguments"), s)
        end
      else if String.eqb text Resources.SELECT_ALL then
        (Resolved (VArr (map resource_json (resources s))), s)
      else if String.eqb text Resources.INSERT then
        match values st with
        | [VStr title; VStr description; VStr url; VStr type; VStr platform] =>
            let id := next_resource_id s in
            (Resolved (header 1 id),
             with_resources s
               ({| res_id := id; res_title := title; res_description := description;
                   res_url := url; res_type := type; res_platform := platform;
                   res_created_at := clock s |} :: resources s)
               (id + 1))
        | _ => (Rejected (sql_error "Incorrect arguments"), s)
        end
      else if String.eqb text Resources.SELECT_BY_ID then
        match values st with
        | [VNum (Int id)] =>
            (Resolved (VArr (map resource_json
                               (filter (fun r => res_id r =? id) (resources s)))), s)
        | _ => (Rejected (sql_error "Incorrect arguments"), s)
        end
      else if String.eqb text Resources.DELETE_BY_ID then
        match values st with
        | [VNum (Int id)] =>
            let hit r := res_id r =? id in
            (Resolved (header (count hit (resources s)) 0),
             with_resources s (filter (fun r => negb (hit r)) (resources s))
               (next_resource_id s))
        | [VNum (Infinity _)] =>
            (Rejected (sql_error "Unknown column 'Infinity' in 'where clause'"), s)
        | _ => (Rejected (sql_error "Incorrect arguments"), s)
        end
      else (Rejected (sql_error "You have an error in your SQL syntax"), s)
  end.

#[export] Instance pool : Pool := {| database := state; run_statement := run |}.

Definition empty : state :=
  {| users := []; resources := []; next_user_id := 1; next_resource_id := 1;
     clock := 0; failure := None |}.

Definition unreachable (message : string) (s : state) : state :=
  {| users := users s; resources := resources s; next_user_id := next_user_id s;
     next_resource_id := next_resource_id s; clock := clock s;
     failure := Some (sql_error message) |}.

Definition start (s : state) : world :=
  {| db := s; issued := []; rejected := []; console := [] |}.

End Mem.

(* ================================================================= *)
(** ** The vocabulary of the specification *)

(** §4.1: the three places an identifier can come from, in the order in
    which they are checked. *)
Definition body_id (req : request) : jsval :=
  match opt_prop (body req) "id" with
  | Normal v => v
  | Throw _ => VUndefined
  end.

Definition id_locations (req : request) : list jsval :=
  [member (params req) "id"; member (query req) "id"; body_id req].

Definition present (v : jsval) : bool := negb (is_nullish v).

Definition first_present (l : list jsval) : option jsval := find present l.

(** §4.1: the value found is parsed as a base-10 integer; a failed parse or
    no value at all is "no identifier" ([null]). *)
Definition resolve (raw : option jsval) : completion jsval :=
  match raw with
  | None => Normal VNull
  | Some v =>
      let* id := parseInt v in
      Normal (if Number_isInteger (VNum id) then VNum id else VNull)
  end.

(** §4.3: a required field that is absent, or empty once trimmed. *)
Definition absent_or_blank (v : jsval) : Prop :=
  v = VUndefined \/ v = VNull \/ exists s, v = VStr s /\ trim s = [].

(** A string of base-10 digits followed by something that is not a digit,
    such as [7abc] or [7.9]. *)
Definition all_digits (ds : jsstring) : bool := forallb is_digit ds.

Definition starts_with_non_digit (rest : jsstring) : bool :=
  match rest with
  | c :: _ => negb (is_digit c)
  | [] => false
  end.

(** The largest range of consecutive integers that doubles hold exactly. *)
Definition exact_limit : Z := 2 ^ 53.

(** The responses of the users variants. *)
Definition failure_body (message : string) : jsval :=
  VObj [field "success" (VBool false); field "error" (str message)].

Definition success_body (message : string) : jsval :=
  VObj [field "success" (VBool true); field "message" (str message)].

Definition updated_body (user : jsval) : jsval :=
  VObj [field "success" (VBool true);
        field "message" (str "Usuario actualizado correctamente");
        field "user" user].

Definition message_body (message : string) : jsval :=
  VObj [field "message" (str message)].

Definition statement_of (m : pool_method) (text : string) (args : list jsval) : statement :=
  {| via := m; sql := text; values := args |}.

Section Effects.
Context {pool : Pool}.

(** The world after one more statement has been sent and answered. *)
Definition after (w : world) (st : statement) (d : database) : world :=
  {| db := d; issued := issued w ++ [st]; rejected := rejected w;
     console := console w |}.

(** The world after one more statement has been sent and rejected. *)
Definition failed (w : world) (st : statement) (e : jserror) (d : database) : world :=
  {| db := d; issued := issued w ++ [st]; rejected := rejected w ++ [e];
     console := console w |}.

Definition logged (w : world) (label : string) (e : jserror) : world :=
  {| db := db w; issued := issued w; rejected := rejected w;
     console := console w ++ [(label, e)] |}.

Definition respond (code : Z) (value : jsval) (w : world) : completion response * world :=
  (Normal {| status := code; payload := value |}, w).

(** What the application gives when a route has taken the request and its
    handler has run: the handler's own answer and effects. *)
Definition answered_by (run : completion response * world)
  : completion (option response) * world :=
  match run with
  | (Normal res, w') => (Normal (Some res), w')
  | (Throw e, w') => (Throw e, w')
  end.

(** §7, StorageError: what each operation answers when the database
    rejects one of its statements, and the label under which it writes
    the error to the console, if it does.  The list of users of part_000
    is not in the table: its answer is not a fixed one. *)
Definition failure_responses : list (handler * response * option string) :=
  [ (Part000.postUsers,
     {| status := 500; payload := failure_body "Error al insertar usuario" |}, None);
    (Part000.updateUserHandler,
     {| status := 500; payload := failure_body "Error al actualizar usuario" |}, None);
    (Part000.deleteUsers,
     {| status := 500; payload := failure_body "Error al eliminar usuario" |}, None);
    (Part001.healthz,
     {| status := 503; payload := VObj [field "ok" (VBool false)] |}, None);
    (Part001.getUsers,
     {| status := 500; payload := VObj [field "error" (str "Error interno")] |}, None);
    (Part001.postUsers,
     {| status := 500; payload := failure_body "Error interno" |}, None);
    (Part001.updateUserHandler,
     {| status := 500; payload := failure_body "Error interno" |}, None);
    (Part001.deleteUsers,
     {| status := 500; payload := failure_body "Error interno" |}, None);
    (Resources.getResources,
     {| status := 500; payload := message_body "Error al obtener los recursos" |},
     Some "Error al obtener recursos:"%string);
    (Resources.postResources,
     {| status := 500; payload := message_body "Error al crear el recurso" |},
     Some "Error al crear recurso:"%string);
    (Resources.deleteResources,
     {| status := 500; payload := message_body "Error al eliminar el recurso" |},
     Some "Error al eliminar recurso:"%string) ].

Definition console_lines (label : option string) (e : jserror) : list (string * jserror) :=
  match label with
  | Some l => [(l, e)]
  | None => []
  end.
End Effects.

Definition with_method (m : http_method) (r : http_request) : http_request :=
  {| method := m; path := path r; url_query := url_query r; json_body := json_body r |}.

(* ================================================================= *)
(** ** Example requests and databases *)

Definition only_body (b : jsval) : request :=
  {| params := []; query := []; body := b |}.

Definition only_path_id (id : jsstring) : request :=
  {| params := [field "id" (VStr id)]; query := []; body := VUndefined |}.

(** [POST /users] with [{name: "  "}]. *)
Definition blank_user : request := only_body (VObj [field "name" (str "  ")]).

(** [PUT /users/1] with [{name: " Ana "}]. *)
Definition rename_user : request :=
  {| params := [field "id" (str "1")]; query := [];
     body := VObj [field "name" (str " Ana ")] |}.

(** [POST /api/resources] with [{title: "A", url: "http://x"}]. *)
Definition minimal_resource : request :=
  only_body (VObj [field "title" (str "A"); field "url" (str "http://x")]).

(** [POST /api/resources] with [{title: "  ", url: "http://x"}]. *)
Definition blank_title_resource : request :=
  only_body (VObj [field "title" (str "  "); field "url" (str "http://x")]).

(** Identifiers that begin with digits: [7abc], [7.9], and one whose digits
    are 2^53 + 1. *)
Definition lenient_id : jsstring := js "7" ++ js "abc".
Definition decimal_id : jsstring := js "7" ++ js ".9".
Definition inexact_id : jsstring := js "9007199254740993" ++ js "abc".

(** An identifier of 310 nines: a decimal numeral beyond every double. *)
Definition nines : jsstring := repeat 57%N 310.

(** [PUT /users/1] with [{name: " Ana "}], before routing. *)
Definition rename_user_request : http_request :=
  {| method := PUT; path := [js "users"; js "1"]; url_query := [];
     json_body := VObj [field "name" (str " Ana ")] |}.

(** [PATCH /Users/1] with [{name: " Ana "}], before routing. *)
Definition capital_rename_request : http_request :=
  {| method := PATCH; path := [js "Users"; js "1"]; url_query := [];
     json_body := VObj [field "name" (str " Ana ")] |}.

(** A request without query string or body. *)
Definition resources_request (m : http_method) (p : list jsstring) : http_request :=
  {| method := m; path := p; url_query := []; json_body := VUndefined |}.

(** A database that cannot be reached. *)
Definition refused : jserror := Mem.sql_error "connect ECONNREFUSED 127.0.0.1:3306".

Definition unreachable_world : world :=
  Mem.start (Mem.unreachable "connect ECONNREFUSED 127.0.0.1:3306" Mem.empty).

(** A database holding the user 1, "Eva". *)
Definition one_user : Mem.state :=
  Mem.with_users Mem.empty [ {| Mem.user_id := 1; Mem.user_name := js "Eva" |} ] 2.

(* ================================================================= *)
(** ** Configuration read from the environment *)

(** [process.env]: a variable holds a string, or it is not set. *)
Definition environment : Type := string -> option jsstring.

(** [process.env.KEY] *)
Definition env_get (env : environment) (key : string) : jsval :=
  match env key with
  | Some s => VStr s
  | None => VUndefined
  end.

(** The variables checked at startup (server.js line 14, part_001 line 24). *)
Definition required_variables : list string :=
  ["DB_HOST"; "DB_USER"; "DB_PASS"; "DB_NAME"]%string.

(** [s.split(sep)] for a separator of one code unit. *)
Fixpoint split (sep : N) (s : jsstring) : list jsstring :=
  match s with
  | [] => [[]]
  | c :: t =>
      if (c =? sep)%N then [] :: split sep t
      else
        match split sep t with
        | piece :: rest => (c :: piece) :: rest
        | [] => [[c]]
        end
  end.

(** part_000, lines 22-28: destructuring with defaults.  A default stands
    in for [undefined] only. *)
Module Config000.

Definition or_default (v d : jsval) : jsval :=
  match v with
  | VUndefined => d
  | _ => v
  end.

Record settings : Type :=
  { DB_HOST : jsval; DB_USER : jsval; DB_PASS : jsval; DB_NAME : jsval; PORT : jsval }.

Definition read (env : environment) : settings :=
  {| DB_HOST := or_default (env_get env "DB_HOST") (str "localhost");
     DB_USER := or_default (env_get env "DB_USER") (str "root");
     DB_PASS := or_default (env_get env "DB_PASS") (VStr []);
     DB_NAME := or_default (env_get env "DB_NAME") (str "usuarios");
     PORT := or_default (env_get env "PORT") (num 3000) |}.

End Config000.

(** What the startup code does with the process. *)
Inductive startup : Type :=
| Continue
| Exit (code : Z) (line : jsstring).

(** part_001, lines 15-29 and 39-45. *)
Module Config001.

Definition PORT (env : environment) : jsval := js_or (env_get env "PORT") (num 3000).

Definition DB_PORT (env : environment) : completion number :=
  parseInt (js_or (env_get env "DB_PORT") (str "3306")).

Definition FRONT_ORIGIN (env : environment) : jsval :=
  js_or (env_get env "FRONT_ORIGIN") (str "*").

(** Lines 24-29: the loop writes the first variable that is missing or
    empty to the console and ends the process with code 1. *)
Fixpoint check (env : environment) (keys : list string) : startup :=
  match keys with
  | [] => Continue
  | k :: rest =>
      if negb (ToBoolean (env_get env k))
      then Exit 1 (js "Falta la variable de entorno: " ++ js k)
      else check env rest
  end.

(** Lines 39-45: the [origin] option handed to [cors]; [None] stands for
    the empty options object, which allows every origin. *)
Definition cors_origin (env : environment) : completion (option (list jsstring)) :=
  if strict_equals (FRONT_ORIGIN env) (str "*") then Normal None
  else
    match FRONT_ORIGIN env with
    | VStr s => Normal (Some (map trim (split 44 s)))
    | _ => Throw (TypeError "FRONT_ORIGIN.split is not a function")
    end.

End Config001.

(** server.js, lines 9-30. *)
Module ConfigServer.

Definition PORT (env : environment) : jsval := js_or (env_get env "PORT") (num 3000).

(** Lines 15-19: one warning per variable that is missing or empty; the
    process goes on. *)
Fixpoint warnings (env : environment) (keys : list string) : list jsstring :=
  match keys with
  | [] => []
  | k :: rest =>
      if negb (ToBoolean (env_get env k))
      then (js "⚠️ Falta la variable de entorno " ++ js k) :: warnings env rest
      else warnings env rest
  end.

(** Line 26: [process.env.DB_PORT ? parseInt(process.env.DB_PORT, 10) : 3306]. *)
Definition port (env : environment) : completion number :=
  if ToBoolean (env_get env "DB_PORT")
  then parseInt (env_get env "DB_PORT")
  else Normal (Int 3306).

End ConfigServer.

(* ================================================================= *)
(** ** src/server.js: the application *)

Module ServerApp.
Section Application.
Context {pool : Pool}.

(** [app.get("/")], lines 54-56. *)
Definition home : handler := fun _ =>
  json 200 (str "API Biblioteca Multimedia en la Nube - OK").

(** [app.use((req, res) => ...)], lines 135-137. *)
Definition notFound : handler := fun _ =>
  json 404 (VObj [field "message" (str "Ruta no encontrada")]).

(** The route bindings, in the order of the file (lines 54, 59, 72, 111). *)
Definition routes : list route :=
  [ {| route_method := GET; route_at := Fixed []; route_handler := home |};
    {| route_method := GET; route_at := Fixed ["api"; "resources"];
       route_handler := Resources.getResources |};
    {| route_method := POST; route_at := Fixed ["api"; "resources"];
       route_handler := Resources.postResources |};
    {| route_method := DELETE; route_at := WithId ["api"; "resources"];
       route_handler := Resources.deleteResources |} ]%string.

(** The routes, then the fallback for whatever none of them took.  The
    [cors()] of line 46 stands before them and answers an [OPTIONS] request
    itself; [app] is what the other requests meet. *)
Definition app (r : http_request) : M response :=
  answered <- dispatch routes r ;;
  match answered with
  | Some res => ret res
  | None =>
      res <- notFound {| params := []; query := url_query r; body := json_body r |} ;;
      ret (written (method r) res)
  end.
End Application.
End ServerApp.

(* ================================================================= *)
(** ** What the handlers promise *)

(** A string with no white space at either end. *)
Definition starts_clean (s : jsstring) : bool :=
  match s with
  | c :: _ => negb (is_white_space c)
  | [] => true
  end.

Definition outer_trimmed (s : jsstring) : bool := starts_clean s && starts_clean (rev s).

Definition all_white_space (s : jsstring) : bool := forallb is_white_space s.

(** A string in which [parseInt] finds no digit after the white space and
    the sign. *)
Definition no_numeral (s : jsstring) : Prop :=
  take_digits (snd (strip_sign (trimStart s))) = [].

(** A value that passes [||] and has no [trim] method. *)
Definition truthy_non_string (v : jsval) : Prop :=
  ToBoolean v = true /\ forall s, v <> VStr s.

(** An optional field of a resource: its default when it is missing, [null]
    or empty, and otherwise the string it holds, trimmed. *)
Definition optional_value (v : jsval) (default : string) (a : jsstring) : Prop :=
  (ToBoolean v = false /\ a = js default) \/
  (exists s, v = VStr s /\ s <> [] /\ a = trim s).

Section Contracts.
Context {pool : Pool}.

(** Per operation: the statuses it answers with, and how many statements
    it sends at most. *)
Definition handler_contracts : list (handler * list Z * nat) :=
  [ (Part000.getUsers, [200; 500], 1%nat);
    (Part000.postUsers, [200; 400; 500], 1%nat);
    (Part000.updateUserHandler, [200; 400; 404; 500], 2%nat);
    (Part000.deleteUsers, [200; 400; 404; 500], 1%nat);
    (Part001.healthz, [200; 503], 1%nat);
    (Part001.getUsers, [200; 500], 1%nat);
    (Part001.postUsers, [200; 400; 500], 1%nat);
    (Part001.updateUserHandler, [200; 400; 404; 500], 2%nat);
    (Part001.deleteUsers, [200; 400; 404; 500], 1%nat);
    (Resources.getResources, [200; 500], 1%nat);
    (Resources.postResources, [201; 400; 500], 2%nat);
    (Resources.deleteResources, [200; 400; 404; 500], 1%nat) ].
End Contracts.

(** [strings.join(",")] *)
Fixpoint joined (l : list jsstring) : jsstring :=
  match l with
  | [] => []
  | x :: rest =>
      match rest with
      | [] => x
      | _ => x ++ js "," ++ joined rest
      end
  end.

(** A variable that is set and not empty. *)
Definition is_set (env : environment) (k : string) : Prop :=
  exists s, env k = Some s /\ s <> [].

(* ================================================================= *)
(** ** More example requests and environments *)

Definition empty_environment : environment := fun _ => None.

Definition set_variable (k : string) (v : jsstring) (env : environment) : environment :=
  fun k' => if String.eqb k' k then Some v else env k'.

Definition database_environment : environment :=
  set_variable "DB_HOST" (js "db.example")
    (set_variable "DB_USER" (js "app")
       (set_variable "DB_PASS" (js "secret")
          (set_variable "DB_NAME" (js "escuela") empty_environment))).

Definition no_password_environment : environment :=
  set_variable "DB_PASS" [] database_environment.

Definition two_origins_environment : environment :=
  set_variable "FRONT_ORIGIN" (js "https://a.example, https://b.example")
               empty_environment.

(** [PUT /users/1] with [{name: 5}]. *)
Definition number_name : request :=
  {| params := [field "id" (str "1")]; query := [];
     body := VObj [field "name" (num 5)] |}.

(** [POST /api/resources] with [{title: "A", url: "http://x", type: "  "}]. *)
Definition spaces_type_resource : request :=
  only_body (VObj [field "title" (str "A"); field "url" (str "http://x");
                   field "type" (str "  ")]).

(** [DELETE /users?id=] with [{id: 7}] in the body. *)
Definition empty_query_id : request :=
  {| params := [field "id" VUndefined]; query := [field "id" (VStr [])];
     body := VObj [field "id" (num 7)] |}.

(** [DELETE /users?id=5&id=6]: the query parser gives an array. *)
Definition repeated_query_id : request :=
  {| params := [field "id" VUndefined];
     query := [field "id" (VArr (map VStr [js "5"; js "6"]))];
     body := VUndefined |}.

(** [DELETE /users] with [{id: 7}] in the body. *)
Definition body_number_id : request := only_body (VObj [field "id" (num 7)]).

(** The identifier [ -5px]. *)
Definition negative_id : jsstring := js " " ++ 45%N :: js "5" ++ js "px".

(** A database holding the resource 1. *)
Definition one_resource : Mem.state :=
  Mem.with_resources Mem.empty
    [ {| Mem.res_id := 1; Mem.res_title := js "A"; Mem.res_description := [];
         Mem.res_url := js "http://x"; Mem.res_type := js "Otro";
         Mem.res_platform := js "Otro"; Mem.res_created_at := 0 |} ] 2.

(* ================================================================= *)
(** ** Strings and parsing *)

Lemma digit_not_space (c : N) : is_digit c = true -> is_white_space c = false.
Proof.
  unfold is_digit. intros H.
  apply andb_true_iff in H. destruct H as [Hlo Hhi].
  apply N.leb_le in Hlo. apply N.leb_le in Hhi.
  assert (Hc : (c = 48 \/ c = 49 \/ c = 50 \/ c = 51 \/ c = 52 \/
                c = 53 \/ c = 54 \/ c = 55 \/ c = 56 \/ c = 57)%N) by lia.
  repeat destruct Hc as [-> | Hc]; try subst c; reflexivity.
Qed.

Lemma digit_not_sign (c : N) (t : jsstring) :
  is_digit c = true -> strip_sign (c :: t) = (false, c :: t).
Proof.
  unfold is_digit. intros H.
  apply andb_true_iff in H. destruct H as [Hlo _]. apply N.leb_le in Hlo.
  unfold strip_sign.
  destruct c as [|p]; [reflexivity|].
  do 6 (destruct p as [p|p|]; try reflexivity); exfalso; lia.
Qed.

Lemma take_digits_app (ds rest : jsstring) :
  all_digits ds = true ->
  take_digits rest = [] ->
  take_digits (ds ++ rest) = ds.
Proof.
  intros Hds Hrest. induction ds as [|c ds IH]; simpl.
  - exact Hrest.
  - simpl in Hds. apply andb_true_iff in Hds. destruct Hds as [Hc Hds].
    rewrite Hc, (IH Hds). reflexivity.
Qed.

Lemma take_digits_non_digit (rest : jsstring) :
  starts_with_non_digit rest = true -> take_digits rest = [].
Proof.
  destruct rest as [|c t]; simpl; [discriminate|].
  destruct (is_digit c); [discriminate | reflexivity].
Qed.

Lemma round_magnitude_exact (m : Z) : m <= exact_limit -> round_magnitude m = Some m.
Proof.
  unfold exact_limit. intros H.
  destruct (Z.eq_dec m (2 ^ 53)) as [-> | Hne]; [vm_compute; reflexivity|].
  unfold round_magnitude.
  destruct (Z.ltb_spec m (2 ^ 53)); [reflexivity | lia].
Qed.

(** [parseInt] on digits followed by a non-digit reads exactly the digits. *)
Lemma parseInt10_leading_digits (ds rest : jsstring) :
  ds <> [] ->
  all_digits ds = true ->
  starts_with_non_digit rest = true ->
  parseInt10 (ds ++ rest) =
    let m := digits_value ds in
    if m =? 0 then Int 0
    else match round_magnitude m with
         | Some v => Int v
         | None => Infinity false
         end.
Proof.
  intros Hne Hds Hrest.
  destruct ds as [|c ds]; [congruence|].
  assert (Hc : is_digit c = true).
  { simpl in Hds. apply andb_true_iff in Hds. tauto. }
  unfold parseInt10.
  change ((c :: ds) ++ rest) with (c :: (ds ++ rest)).
  simpl trimStart. rewrite (digit_not_space c Hc).
  rewrite (digit_not_sign c (ds ++ rest) Hc).
  change (c :: (ds ++ rest)) with ((c :: ds) ++ rest).
  rewrite (take_digits_app (c :: ds) rest Hds (take_digits_non_digit rest Hrest)).
  reflexivity.
Qed.

Lemma parseInt10_exact (ds rest : jsstring) :
  ds <> [] ->
  all_digits ds = true ->
  starts_with_non_digit rest = true ->
  digits_value ds <= exact_limit ->
  parseInt10 (ds ++ rest) = Int (digits_value ds).
Proof.
  intros Hne Hds Hrest Hle.
  rewrite (parseInt10_leading_digits ds rest Hne Hds Hrest). cbv zeta.
  destruct (Z.eqb_spec (digits_value ds) 0) as [-> | _]; [reflexivity|].
  rewrite (round_magnitude_exact _ Hle). reflexivity.
Qed.

(* ================================================================= *)
(** ** Running a handler *)

Section Running.
Context {pool : Pool}.

Lemma send_resolved (m : pool_method) (text : string) (args : list jsval)
      (w : world) (v : jsval) (d : database) :
  run_statement (db w) (statement_of m text args) = (Resolved v, d) ->
  send m text args w = (Normal v, after w (statement_of m text args) d).
Proof. unfold send, statement_of, after. intros ->. reflexivity. Qed.

Lemma send_rejected (m : pool_method) (text : string) (args : list jsval)
      (w : world) (e : jserror) (d : database) :
  run_statement (db w) (statement_of m text args) = (Rejected e, d) ->
  send m text args w = (Throw e, failed w (statement_of m text args) e d).
Proof. unfold send, statement_of, failed. intros ->. reflexivity. Qed.

End Running.

Lemma opt_prop_total (b : jsval) (name : string) : exists v, opt_prop b name = Normal v.
Proof.
  unfold opt_prop.
  destruct b; simpl; eauto;
    try (destruct (lookup (js name) props); eauto);
    destruct (String.eqb name "length"); eauto.
Qed.

Lemma opt_prop_body_id (req : request) : opt_prop (body req) "id" = Normal (body_id req).
Proof.
  unfold body_id. destruct (opt_prop_total (body req) "id") as [v ->]. reflexivity.
Qed.

Lemma resolve_nullish (v : jsval) : is_nullish v = true -> resolve (Some v) = Normal VNull.
Proof. destruct v; simpl; try discriminate; intros _; vm_compute; reflexivity. Qed.

Lemma getId_resolve (req : request) : getId req = resolve (first_present (id_locations req)).
Proof.
  unfold getId, id_locations, first_present, coalesce, present. simpl find.
  rewrite opt_prop_body_id.
  destruct (is_nullish (member (params req) "id")) eqn:Hp; simpl.
  - destruct (is_nullish (member (query req) "id")) eqn:Hq; simpl.
    + destruct (is_nullish (body_id req)) eqn:Hb; simpl.
      * exact (resolve_nullish _ Hb).
      * reflexivity.
    + rewrite ?Hq. reflexivity.
  - rewrite ?Hp. reflexivity.
Qed.

(** C1.  Identifier resolution looks at the path parameter, then the query
    parameter, then the body field, and resolves the first value that is
    present; with path id 5, query id 6 and body id 7 (and whatever else the
    query and the body carry) the identifier is 5. *)
Theorem getId_first_present_wins :
  (forall req : request, getId req = resolve (first_present (id_locations req))) /\
  (forall (q b : object),
      getId {| params := [field "id" (str "5")];
               query := field "id" (str "6") :: q;
               body := VObj (field "id" (num 7) :: b) |} = Normal (num 5)).
Proof.
  split.
  - exact getId_resolve.
  - intros q b. rewrite getId_resolve. reflexivity.
Qed.

Lemma no_self_append {A} (l : list A) (x : A) : l <> l ++ [x].
Proof.
  intros H. apply (f_equal (@List.length A)) in H.
  rewrite length_app in H. simpl in H. lia.
Qed.

Lemma last_appended {A} (l : list A) (x y : A) : l ++ [x] = l ++ [y] -> x = y.
Proof. intros H. apply app_inv_head in H. congruence. Qed.

(** At the end of a path: either nothing was rejected on it, or one
    statement was and the answer is the fixed one. *)
Ltac settle :=
  do 2 eexists; split; [reflexivity|];
  cbn [rejected console db issued];
  first [ left; reflexivity
        | right; eexists; split; [reflexivity|];
          split; [reflexivity | split; [simpl; lia |]];
          cbn [console_lines]; rewrite ?app_nil_r; reflexivity ].

Lemma body_name_blank (req : request) (v : jsval) :
  opt_prop (body req) "name" = Normal v ->
  absent_or_blank v ->
  body_name req = Normal (VStr []).
Proof.
  unfold body_name. intros -> [-> | [-> | [s [-> Hs]]]]; simpl; try reflexivity.
  unfold js_or. destruct s as [|c s]; simpl ToBoolean; cbv iota.
  - reflexivity.
  - simpl. rewrite Hs. reflexivity.
Qed.

Lemma body_name_valid (req : request) (s : jsstring) :
  opt_prop (body req) "name" = Normal (VStr s) ->
  trim s <> [] ->
  body_name req = Normal (VStr (trim s)) /\ ToBoolean (VStr (trim s)) = true.
Proof.
  unfold body_name. intros -> Hs. simpl.
  destruct s as [|c s]; [elim Hs; reflexivity|].
  split; [reflexivity|].
  simpl. destruct (trim (c :: s)); [congruence | reflexivity].
Qed.

Lemma getId_integer (req : request) (n : number) :
  getId req = Normal (VNum n) -> Number_isInteger (VNum n) = true.
Proof.
  rewrite getId_resolve. unfold resolve.
  destruct (first_present (id_locations req)) as [v|]; [|discriminate].
  destruct (parseInt v) as [id|e]; simpl; [|discriminate].
  destruct id; simpl; intros H; inversion H; reflexivity.
Qed.

Ltac run_handler :=
  unfold try_catch, bind, lift, json, ret, respond, pool_query, pool_execute,
         console_error, logged.

(** One step of a run: the answer of the database to the next statement, or
    the value of the next expression, is known from [H]. *)
Ltac step H :=
  first [ match goal with
          | |- context [send ?m ?t ?a ?w0] =>
              first [ rewrite (send_resolved m t a w0 _ _ H)
                    | rewrite (send_rejected m t a w0 _ _ H) ]
          end
        | rewrite H ];
  cbv beta iota.

(** A comparison of two number literals. *)
Ltac compare_literals :=
  match goal with
  | |- context [strict_equals (num ?a) (num ?b)] =>
      let v := eval vm_compute in (strict_equals (num a) (num b)) in
      change (strict_equals (num a) (num b)) with v; cbv beta iota
  end.

(** Run to the end with the answers found among the hypotheses. *)
Ltac run_with_answers :=
  repeat first
    [ compare_literals
    | match goal with
      | H : run_statement _ _ = _ |- _ => step H
      | H : get_prop _ _ = _ |- _ => step H
      | H : get_first _ = _ |- _ => step H
      end ].

(** Follow every path of a run, innermost test first. *)
Ltac explore :=
  repeat match goal with
         | |- context [match ?x with _ => _ end] =>
             lazymatch x with
             | context [match _ with _ => _ end] => fail
             | _ => destruct x eqn:?; cbv beta iota
             end
         end.

Ltac known t v := replace t with v by (vm_compute; reflexivity); cbv beta iota.

Section Operations.
Context {pool : Pool}.

(** C6.  A user creation request whose name is absent, or empty once
    trimmed (a name of spaces only, for instance), is answered with 400
    and [{success: false, error: "Nombre no válido"}]; the world is left
    as it was, so no insert is attempted.  Both users variants. *)
Theorem postUsers_blank_name_rejected (req : request) (v : jsval) (w : world) :
  opt_prop (body req) "name" = Normal v ->
  absent_or_blank v ->
  Part000.postUsers req w = respond 400 (failure_body "Nombre no válido") w /\
  Part001.postUsers req w = respond 400 (failure_body "Nombre no válido") w.
Proof.
  intros Hv Hblank.
  unfold Part000.postUsers, Part001.postUsers. run_handler.
  rewrite (body_name_blank req v Hv Hblank). split; reflexivity.
Qed.


(** C4.  A user update with a resolved identifier and a valid name sends
    one UPDATE.  When it affects exactly one row the handler reads the
    row again and answers 200 with it (with [{id, name}] if the row is no
    longer there); when it affects no row the answer is 404; when the
    database fails, on the UPDATE or on the re-read, the answer is 500.
    Both users variants. *)
Theorem updateUserHandler_result_policy
        (req : request) (n : number) (s : jsstring) (w : world) :
  getId req = Normal (VNum n) ->
  opt_prop (body req) "name" = Normal (VStr s) ->
  trim s <> [] ->
  let id := VNum n in
  let name := VStr (trim s) in
  let update :=
    statement_of Execute "UPDATE users SET name = ? WHERE id = ?" [name; id] in
  let reread :=
    statement_of Execute "SELECT id, name FROM users WHERE id = ?" [id] in
  (forall hdr d rows d' first,
      run_statement (db w) update = (Resolved hdr, d) ->
      get_prop hdr "affectedRows" = Normal (num 1) ->
      run_statement d reread = (Resolved rows, d') ->
      get_first rows = Normal first ->
      let user := js_or first (VObj [field "id" id; field "name" name]) in
      let w' := after (after w update d) reread d' in
      Part000.updateUserHandler req w = respond 200 (updated_body user) w' /\
      Part001.updateUserHandler req w = respond 200 (updated_body user) w') /\
  (forall hdr d,
      run_statement (db w) update = (Resolved hdr, d) ->
      get_prop hdr "affectedRows" = Normal (num 0) ->
      let w' := after w update d in
      Part000.updateUserHandler req w
        = respond 404 (failure_body "Usuario no encontrado") w' /\
      Part001.updateUserHandler req w
        = respond 404 (failure_body "Usuario no encontrado") w') /\
  (forall e d,
      run_statement (db w) update = (Rejected e, d) ->
      let w' := failed w update e d in
      Part000.updateUserHandler req w
        = respond 500 (failure_body "Error al actualizar usuario") w' /\
      Part001.updateUserHandler req w
        = respond 500 (failure_body "Error interno") w') /\
  (forall hdr d e d',
      run_statement (db w) update = (Resolved hdr, d) ->
      get_prop hdr "affectedRows" = Normal (num 1) ->
      run_statement d reread = (Rejected e, d') ->
      let w' := failed (after w update d) reread e d' in
      Part000.updateUserHandler req w
        = respond 500 (failure_body "Error al actualizar usuario") w' /\
      Part001.updateUserHandler req w
        = respond 500 (failure_body "Error interno") w').
Proof.
  intros Hid Hraw Hs id name update reread.
  destruct (body_name_valid req s Hraw Hs) as [Hname Htruthy].
  pose proof (getId_integer req n Hid) as Hint.
  subst id name update reread.
  repeat split; intros;
    match goal with
    | |- context [Part000.updateUserHandler] => unfold Part000.updateUserHandler
    | |- context [Part001.updateUserHandler] => unfold Part001.updateUserHandler
    end;
    run_handler; step Hid; step Hname; step Hint; step Htruthy;
    cbv beta iota delta [negb];
    run_with_answers; reflexivity.
Qed.

(** *** Deleting *)

(** No identifier: 400, and the world is left as it was. *)
Lemma deleteUsers_without_id (req : request) (w : world) :
  getId req = Normal VNull ->
  Part000.deleteUsers req w = respond 400 (failure_body "ID no proporcionado") w /\
  Part001.deleteUsers req w = respond 400 (failure_body "ID no proporcionado") w.
Proof.
  intros Hid. unfold Part000.deleteUsers, Part001.deleteUsers. run_handler.
  rewrite Hid. split; reflexivity.
Qed.

(** With an identifier: one DELETE, then 200, 404 or 500 by its result. *)
Lemma deleteUsers_result_policy (req : request) (n : number) (w : world) :
  getId req = Normal (VNum n) ->
  let remove := statement_of Execute "DELETE FROM users WHERE id = ?" [VNum n] in
  (forall hdr d,
      run_statement (db w) remove = (Resolved hdr, d) ->
      get_prop hdr "affectedRows" = Normal (num 1) ->
      Part000.deleteUsers req w
        = respond 200 (success_body "Usuario eliminado correctamente") (after w remove d) /\
      Part001.deleteUsers req w
        = respond 200 (success_body "Usuario eliminado correctamente") (after w remove d)) /\
  (forall hdr d,
      run_statement (db w) remove = (Resolved hdr, d) ->
      get_prop hdr "affectedRows" = Normal (num 0) ->
      Part000.deleteUsers req w
        = respond 404 (failure_body "Usuario no encontrado") (after w remove d) /\
      Part001.deleteUsers req w
        = respond 404 (failure_body "Usuario no encontrado") (after w remove d)) /\
  (forall e d,
      run_statement (db w) remove = (Rejected e, d) ->
      Part000.deleteUsers req w
        = respond 500 (failure_body "Error al eliminar usuario") (failed w remove e d) /\
      Part001.deleteUsers req w
        = respond 500 (failure_body "Error interno") (failed w remove e d)).
Proof.
  intros Hid remove. pose proof (getId_integer req n Hid) as Hint. subst remove.
  repeat split; intros;
    match goal with
    | |- context [Part000.deleteUsers] => unfold Part000.deleteUsers
    | |- context [Part001.deleteUsers] => unfold Part001.deleteUsers
    end;
    run_handler; step Hid; step Hint; cbv beta iota delta [negb];
    run_with_answers; reflexivity.
Qed.

(** Whatever the database answers, a delete with an identifier sends its
    one statement and does not answer 400. *)
Lemma deleteUsers_reaches_database (req : request) (n : number) (w : world) :
  getId req = Normal (VNum n) ->
  let remove := statement_of Execute "DELETE FROM users WHERE id = ?" [VNum n] in
  (exists r w', Part000.deleteUsers req w = (Normal r, w') /\
                status r <> 400 /\ issued w' = issued w ++ [remove]) /\
  (exists r w', Part001.deleteUsers req w = (Normal r, w') /\
                status r <> 400 /\ issued w' = issued w ++ [remove]).
Proof.
  intros Hid remove. pose proof (getId_integer req n Hid) as Hint. subst remove.
  split;
    match goal with
    | |- context [Part000.deleteUsers] => unfold Part000.deleteUsers
    | |- context [Part001.deleteUsers] => unfold Part001.deleteUsers
    end;
    run_handler; step Hid; step Hint; cbv beta iota delta [negb];
    unfold send, statement_of;
    destruct (run_statement (db w) _) as [[hdr | e] d]; cbv beta iota;
    try (destruct (get_prop hdr "affectedRows") as [a | e]; cbv beta iota;
         try destruct (strict_equals a (num 1)));
    do 2 eexists; (split; [reflexivity | split; [simpl; lia | reflexivity]]).
Qed.

(** The resources variant, lines 111-132: an identifier that [parseInt]
    cannot read at all is refused with 400 before any statement. *)
Lemma deleteResources_unreadable_id (req : request) (w : world) :
  parseInt (member (params req) "id") = Normal NaN ->
  Resources.deleteResources req w = respond 400 (message_body "ID inválido") w.
Proof.
  intros Hid. unfold Resources.deleteResources. run_handler.
  rewrite Hid. reflexivity.
Qed.

Lemma deleteResources_result_policy (req : request) (n : number) (w : world) :
  parseInt (member (params req) "id") = Normal n ->
  n <> NaN ->
  let remove := statement_of Query Resources.DELETE_BY_ID [VNum n] in
  (forall hdr d,
      run_statement (db w) remove = (Resolved hdr, d) ->
      get_prop hdr "affectedRows" = Normal (num 1) ->
      Resources.deleteResources req w
        = respond 200 (message_body "Recurso eliminado correctamente") (after w remove d)) /\
  (forall hdr d,
      run_statement (db w) remove = (Resolved hdr, d) ->
      get_prop hdr "affectedRows" = Normal (num 0) ->
      Resources.deleteResources req w
        = respond 404 (message_body "Recurso no encontrado") (after w remove d)) /\
  (forall e d,
      run_statement (db w) remove = (Rejected e, d) ->
      Resources.deleteResources req w
        = respond 500 (message_body "Error al eliminar el recurso")
            (logged (failed w remove e d) "Error al eliminar recurso:" e)).
Proof.
  intros Hid Hnan remove. subst remove.
  assert (Hn : Number_isNaN (VNum n) = false) by (destruct n; simpl; congruence).
  repeat split; intros; unfold Resources.deleteResources;
    run_handler; step Hid; step Hn; run_with_answers; reflexivity.
Qed.

(** C5.  In the resources variant an identifier too long for a double
    reads as [Infinity]: it is not an integer, yet the check of line 115
    lets it through, and the DELETE is sent with it whatever the database
    then answers.  The users variants refuse the same identifier with 400
    and send nothing. *)
Theorem deleteResources_unbounded_id_reaches_database (w : world) :
  let req := only_path_id nines in
  let remove := statement_of Query Resources.DELETE_BY_ID [VNum (Infinity false)] in
  parseInt (member (params req) "id") = Normal (Infinity false) /\
  Number_isInteger (VNum (Infinity false)) = false /\
  (exists r w', Resources.deleteResources req w = (Normal r, w') /\
                status r <> 400 /\ issued w' = issued w ++ [remove]) /\
  Part000.deleteUsers req w = respond 400 (failure_body "ID no proporcionado") w /\
  Part001.deleteUsers req w = respond 400 (failure_body "ID no proporcionado") w.
Proof.
  intros req remove.
  assert (Hid : parseInt (member (params req) "id") = Normal (Infinity false))
    by (vm_compute; reflexivity).
  split; [exact Hid|]. split; [reflexivity|]. split.
  - unfold Resources.deleteResources. run_handler. step Hid.
    unfold Number_isNaN, send, remove, statement_of.
    destruct (run_statement (db w) _) as [[hdr | e] d]; cbv beta iota;
      try (destruct (get_prop hdr "affectedRows") as [a | e]; cbv beta iota;
           try destruct (strict_equals a (num 0)));
      do 2 eexists; (split; [reflexivity | split; [simpl; lia | reflexivity]]).
  - apply deleteUsers_without_id. vm_compute. reflexivity.
Qed.

(** A probe that resolves is always answered with 200; [ok] is computed
    from the first row. *)
Lemma healthz_resolved (req : request) (w : world) (r : jsval) (d : database) :
  let probe := statement_of Query "SELECT 1 AS ok" [] in
  run_statement (db w) probe = (Resolved r, d) ->
  exists ok : bool,
    Part001.healthz req w = respond 200 (VObj [field "ok" (VBool ok)]) (after w probe d).
Proof.
  intros probe Hprobe. subst probe.
  unfold Part001.healthz. run_handler. step Hprobe.
  assert (Hfirst : exists first, opt_first r = Normal first).
  { unfold opt_first, get_first.
    destruct r as [| | b | n | s | l | props]; simpl; eauto.
    destruct (lookup (js "0") props); eauto. }
  destruct Hfirst as [first ->]. cbv beta iota.
  destruct (opt_prop_total first "ok") as [ok ->]. cbv beta iota.
  eexists. reflexivity.
Qed.

(** C8.  [GET /healthz]: when the probe [SELECT 1 AS ok] succeeds, that
    is, resolves to rows of which the first has [ok] equal to 1, the answer
    is 200 [{ok: true}]; when the probe is rejected the answer is 503
    [{ok: false}]. *)
Theorem healthz_probe (req : request) (w : world) :
  let probe := statement_of Query "SELECT 1 AS ok" [] in
  (forall r d first ok,
      run_statement (db w) probe = (Resolved r, d) ->
      opt_first r = Normal first ->
      opt_prop first "ok" = Normal ok ->
      strict_equals ok (num 1) = true ->
      Part001.healthz req w
        = respond 200 (VObj [field "ok" (VBool true)]) (after w probe d)) /\
  (forall e d,
      run_statement (db w) probe = (Rejected e, d) ->
      Part001.healthz req w
        = respond 503 (VObj [field "ok" (VBool false)]) (failed w probe e d)).
Proof.
  intros probe. subst probe.
  split.
  - intros r d first ok Hprobe Hfirst Hok Hone.
    unfold Part001.healthz. run_handler.
    step Hprobe. step Hfirst. step Hok. rewrite Hone. reflexivity.
  - intros e d Hprobe.
    unfold Part001.healthz. run_handler. step Hprobe. reflexivity.
Qed.

(** C9.  [PUT /users/:id?] and [PATCH /users/:id?] are two bindings of the
    one [updateUserHandler].  Under either method a request to [/users/x]
    is answered by [updateUserHandler] with [x] as the path identifier, and
    a request to [/users] by [updateUserHandler] without one ([users] in
    any letter case).  So on every request and every world the two methods
    give the same response and the same effects; both bindings are in the
    routes of the application, and no other route is bound to [PUT] or
    [PATCH].  Both users variants. *)
Theorem put_patch_same_handler :
  (forall (r : http_request) (w : world),
      Part000.app (with_method PUT r) w = Part000.app (with_method PATCH r) w /\
      Part001.app (with_method PUT r) w = Part001.app (with_method PATCH r) w) /\
  (forall rt : route,
      In rt Part000.routes ->
      route_method rt = PUT \/ route_method rt = PATCH ->
      route_at rt = WithOptionalId ["users"%string] /\
      route_handler rt = Part000.updateUserHandler) /\
  (forall rt : route,
      In rt Part001.routes ->
      route_method rt = PUT \/ route_method rt = PATCH ->
      route_at rt = WithOptionalId ["users"%string] /\
      route_handler rt = Part001.updateUserHandler) /\
  (forall (m : http_method) (u : jsstring) (q : object) (b : jsval) (w : world),
      m = PUT \/ m = PATCH ->
      same_segment "users" u = true ->
      let asked p := {| method := m; path := p; url_query := q; json_body := b |} in
      let given id := {| params := [field "id" id]; query := q; body := b |} in
      (forall x : jsstring,
          Part000.app (asked [u; x]) w
            = answered_by (Part000.updateUserHandler (given (VStr x)) w) /\
          Part001.app (asked [u; x]) w
            = answered_by (Part001.updateUserHandler (given (VStr x)) w)) /\
      Part000.app (asked [u]) w
        = answered_by (Part000.updateUserHandler (given VUndefined) w) /\
      Part001.app (asked [u]) w
        = answered_by (Part001.updateUserHandler (given VUndefined) w)) /\
  (forall m : http_method,
      m = PUT \/ m = PATCH ->
      In {| route_method := m; route_at := WithOptionalId ["users"%string];
            route_handler := Part000.updateUserHandler |} Part000.routes /\
      In {| route_method := m; route_at := WithOptionalId ["users"%string];
            route_handler := Part001.updateUserHandler |} Part001.routes).
Proof.
  split; [|split; [|split; [|split]]].
  - intros r w. unfold Part000.app, Part001.app, with_method. simpl method.
    unfold Part000.routes, Part001.routes, dispatch; simpl.
    split; reflexivity.
  - intros rt Hin Hm. unfold Part000.routes in Hin. cbn [In] in Hin.
    repeat destruct Hin as [<- | Hin];
      cbn [route_method route_at route_handler] in Hm |- *;
      try contradiction;
      destruct Hm as [Hm | Hm]; try discriminate Hm; split; reflexivity.
  - intros rt Hin Hm. unfold Part001.routes in Hin. cbn [In] in Hin.
    repeat destruct Hin as [<- | Hin];
      cbn [route_method route_at route_handler] in Hm |- *;
      try contradiction;
      destruct Hm as [Hm | Hm]; try discriminate Hm; split; reflexivity.
  - intros m u q b w Hm Hu asked given. subst asked given.
    unfold Part000.app, Part001.app, Part000.routes, Part001.routes, answered_by.
    destruct Hm as [-> | ->];
      cbn [dispatch takes http_method_eqb orb andb method path url_query json_body
           route_method route_at route_handler match_path strip_prefix written];
      rewrite Hu; cbv beta iota; unfold bind, ret;
      (split; [intros x; split | split]);
      match goal with
      | |- context [?h ?req w] =>
          match type of h with
          | handler => destruct (h req w) as [[res | e] w']; reflexivity
          end
      end.
  - intros m [-> | ->]; split; unfold Part000.routes, Part001.routes; cbn [In];
      repeat (first [left; reflexivity | right]).
Qed.

(** *** Updating with a lenient identifier *)

(** Whatever the database answers, an update with an identifier and a
    valid name sends its UPDATE first and does not answer 400. *)
Lemma updateUserHandler_reaches_database
      (req : request) (n : number) (s : jsstring) (w : world) :
  getId req = Normal (VNum n) ->
  opt_prop (body req) "name" = Normal (VStr s) ->
  trim s <> [] ->
  let update :=
    statement_of Execute "UPDATE users SET name = ? WHERE id = ?"
                 [VStr (trim s); VNum n] in
  (exists r w' more, Part000.updateUserHandler req w = (Normal r, w') /\
                     status r <> 400 /\ issued w' = issued w ++ update :: more) /\
  (exists r w' more, Part001.updateUserHandler req w = (Normal r, w') /\
                     status r <> 400 /\ issued w' = issued w ++ update :: more).
Proof.
  intros Hid Hraw Hs update.
  destruct (body_name_valid req s Hraw Hs) as [Hname Htruthy].
  pose proof (getId_integer req n Hid) as Hint. subst update.
  split;
    match goal with
    | |- context [Part000.updateUserHandler] => unfold Part000.updateUserHandler
    | |- context [Part001.updateUserHandler] => unfold Part001.updateUserHandler
    end;
    run_handler; step Hid; step Hname; step Hint; step Htruthy;
    cbv beta iota delta [negb];
    unfold send at 1, statement_of;
    destruct (run_statement (db w) _) as [[hdr | e] d]; cbv beta iota;
    try (destruct (get_prop hdr "affectedRows") as [a | e]; cbv beta iota;
         try (destruct (strict_equals a (num 1));
              try (unfold send; cbn [db issued rejected console];
                   destruct (run_statement d _) as [[rows | e] d']; cbv beta iota;
                   try (destruct (get_first rows) as [first | e]; cbv beta iota))));
    do 3 eexists;
    (split; [reflexivity | split; [simpl; lia |]]);
    cbn [issued]; rewrite <- ?app_assoc; reflexivity.
Qed.

(** C10, as amended.  An identifier that begins with base-10 digits
    followed by something that is not a digit, the digits denoting at most
    2^53, is not refused: it resolves to the integer its digits denote,
    and delete and update (given a valid name) send their statement with
    that identifier instead of answering 400.  Both users variants. *)
Theorem getId_leading_digits
        (req : request) (ds rest : jsstring) (w : world) :
  first_present (id_locations req) = Some (VStr (ds ++ rest)) ->
  ds <> [] ->
  all_digits ds = true ->
  starts_with_non_digit rest = true ->
  digits_value ds <= exact_limit ->
  let id := num (digits_value ds) in
  let remove := statement_of Execute "DELETE FROM users WHERE id = ?" [id] in
  getId req = Normal id /\
  (exists r w', Part000.deleteUsers req w = (Normal r, w') /\
                status r <> 400 /\ issued w' = issued w ++ [remove]) /\
  (exists r w', Part001.deleteUsers req w = (Normal r, w') /\
                status r <> 400 /\ issued w' = issued w ++ [remove]) /\
  (forall s : jsstring,
      opt_prop (body req) "name" = Normal (VStr s) ->
      trim s <> [] ->
      let update :=
        statement_of Execute "UPDATE users SET name = ? WHERE id = ?"
                     [VStr (trim s); id] in
      (exists r w' more, Part000.updateUserHandler req w = (Normal r, w') /\
                         status r <> 400 /\ issued w' = issued w ++ update :: more) /\
      (exists r w' more, Part001.updateUserHandler req w = (Normal r, w') /\
                         status r <> 400 /\ issued w' = issued w ++ update :: more)).
Proof.
  intros Hraw Hne Hds Hrest Hle id remove.
  assert (Hid : getId req = Normal id).
  { rewrite getId_resolve, Hraw. unfold resolve, parseInt. simpl ToString.
    unfold cbind. rewrite (parseInt10_exact ds rest Hne Hds Hrest Hle). reflexivity. }
  split; [exact Hid|].
  destruct (deleteUsers_reaches_database req _ w Hid) as [H0 H1].
  split; [exact H0|]. split; [exact H1|].
  intros s Hname Hs. exact (updateUserHandler_reaches_database req _ s w Hid Hname Hs).
Qed.

(** *** Creating a resource *)

Lemma get_prop_object (props : object) (name : string) :
  get_prop (VObj props) name = Normal (member props name).
Proof. unfold get_prop, member. destruct (lookup (js name) props); reflexivity. Qed.

(** A required field that is missing, [null] or the empty string: 400,
    and the world is left as it was. *)
Lemma postResources_missing_field (req : request) (props : object) (w : world) :
  body req = VObj props ->
  ToBoolean (member props "title") = false \/ ToBoolean (member props "url") = false ->
  Resources.postResources req w
    = respond 400 (message_body "El título y la URL son obligatorios") w.
Proof.
  intros Hbody Hmissing. unfold Resources.postResources. run_handler.
  rewrite Hbody, !get_prop_object. cbv beta iota.
  replace (negb (ToBoolean (member props "title")) || negb (ToBoolean (member props "url")))
    with true; [reflexivity|].
  destruct Hmissing as [-> | ->]; simpl; [reflexivity | apply eq_sym, orb_true_r].
Qed.

(** With both required fields, the INSERT carries the trimmed values, the
    optional ones replaced by their defaults when they are missing; the
    answer is 201 with the row read back, or 500 when the database
    rejects the INSERT. *)
Lemma postResources_insert
      (req : request) (props : object) (t u : jsstring) (a2 a4 a5 : jsval) (w : world) :
  body req = VObj props ->
  member props "title" = VStr t -> t <> [] ->
  member props "url" = VStr u -> u <> [] ->
  call_trim (js_or (member props "description") (VStr [])) = Normal a2 ->
  call_trim (js_or (member props "type") (str "Otro")) = Normal a4 ->
  call_trim (js_or (member props "platform") (str "Otro")) = Normal a5 ->
  let insert :=
    statement_of Query Resources.INSERT [VStr (trim t); a2; VStr (trim u); a4; a5] in
  (forall hdr d insertedId rows d' row,
      run_statement (db w) insert = (Resolved hdr, d) ->
      get_prop hdr "insertId" = Normal insertedId ->
      let reread := statement_of Query Resources.SELECT_BY_ID [insertedId] in
      run_statement d reread = (Resolved rows, d') ->
      get_first rows = Normal row ->
      Resources.postResources req w
        = respond 201 row (after (after w insert d) reread d')) /\
  (forall e d,
      run_statement (db w) insert = (Rejected e, d) ->
      Resources.postResources req w
        = respond 500 (message_body "Error al crear el recurso")
            (logged (failed w insert e d) "Error al crear recurso:" e)).
Proof.
  intros Hbody Ht Htne Hu Hune H2 H4 H5 insert. subst insert.
  assert (Htt : ToBoolean (VStr t) = true) by (destruct t; [congruence | reflexivity]).
  assert (Hut : ToBoolean (VStr u) = true) by (destruct u; [congruence | reflexivity]).
  split; intros; unfold Resources.postResources; run_handler;
    rewrite Hbody, !get_prop_object; cbv beta iota;
    rewrite Ht, Hu, Htt, Hut; cbv beta iota delta [negb orb];
    change (call_trim (VStr t)) with (Normal (VStr (trim t)));
    change (call_trim (VStr u)) with (Normal (VStr (trim u)));
    rewrite H2, H4, H5; cbv beta iota;
    run_with_answers; reflexivity.
Qed.

(** *** Storage failures *)

(** In part_000 the list of users answers a storage failure with the
    driver's own error message appended to ["Error de conexión: "], and
    writes nothing to the console. *)
Lemma getUsers_error_detail_returned
        (req : request) (w : world) (e : jserror) (d : database) :
  let list := statement_of Query "SELECT id, name FROM users ORDER BY id DESC" [] in
  run_statement (db w) list = (Rejected e, d) ->
  err_message e <> [] ->
  Part000.getUsers req w
    = respond 500
        (VObj [field "error" (VStr (js "Error de conexión: " ++ err_message e))])
        (failed w list e d).
Proof.
  intros list Hreject Hmessage. subst list.
  unfold Part000.getUsers. run_handler. step Hreject.
  destruct (err_message e); [congruence | reflexivity].
Qed.

(** C3, as amended.  Every operation always answers.  Either the database
    rejected none of its statements, or it rejected exactly one, and then
    the answer is the operation's own fixed 5xx response (503 for the
    health check, 500 otherwise), which does not depend on the error.  The
    resources variant writes the error to the console; the users variants
    write nothing.  (The list of users of part_000 is not among
    [failure_responses].) *)
Theorem storage_failure_response
        (h : handler) (resp : response) (label : option string)
        (req : request) (w : world) :
  In (h, resp, label) failure_responses ->
  exists r w',
    h req w = (Normal r, w') /\
    (rejected w' = rejected w \/
     exists e,
       rejected w' = rejected w ++ [e] /\
       r = resp /\ 500 <= status r < 600 /\
       console w' = console w ++ console_lines label e).
Proof.
  unfold failure_responses. cbn [In]. intros Hin.
  repeat destruct Hin as [Hin | Hin]; try contradiction;
    injection Hin as <- <- <-.
  - unfold Part000.postUsers. run_handler. unfold send. explore; settle.
  - unfold Part000.updateUserHandler. run_handler. unfold send. explore; settle.
  - unfold Part000.deleteUsers. run_handler. unfold send. explore; settle.
  - unfold Part001.healthz. run_handler. unfold send. explore; settle.
  - unfold Part001.getUsers. run_handler. unfold send. explore; settle.
  - unfold Part001.postUsers. run_handler. unfold send. explore; settle.
  - unfold Part001.updateUserHandler. run_handler. unfold send. explore; settle.
  - unfold Part001.deleteUsers. run_handler. unfold send. explore; settle.
  - unfold Resources.getResources. run_handler. unfold send. explore; settle.
  - unfold Resources.postResources. run_handler. unfold send. explore; settle.
  - unfold Resources.deleteResources. run_handler. unfold send. explore; settle.
Qed.

End Operations.

(* ================================================================= *)
(** ** The reference database at work *)

Lemma Mem_insert_resource (s : Mem.state) (t d u ty pf : jsstring) :
  Mem.failure s = None ->
  Mem.run s (statement_of Query Resources.INSERT [VStr t; VStr d; VStr u; VStr ty; VStr pf])
    = (Resolved (Mem.header 1 (Mem.next_resource_id s)),
       Mem.with_resources s
         ({| Mem.res_id := Mem.next_resource_id s; Mem.res_title := t;
             Mem.res_description := d; Mem.res_url := u; Mem.res_type := ty;
             Mem.res_platform := pf; Mem.res_created_at := Mem.clock s |}
            :: Mem.resources s)
         (Mem.next_resource_id s + 1)).
Proof. intros Hok. unfold Mem.run. rewrite Hok. reflexivity. Qed.

Lemma Mem_reread_resource (s : Mem.state) (r : Mem.resource_row) (rest : list Mem.resource_row) :
  Mem.failure s = None ->
  Mem.resources s = r :: rest ->
  exists rows,
    Mem.run s (statement_of Query Resources.SELECT_BY_ID [num (Mem.res_id r)])
      = (Resolved rows, s) /\
    get_first rows = Normal (Mem.resource_json r).
Proof.
  intros Hok Hrows. unfold Mem.run. rewrite Hok.
  eexists. split; [reflexivity|].
  rewrite Hrows. simpl filter. rewrite Z.eqb_refl. reflexivity.
Qed.

(** C7.  Creating a resource from [{title: "A", url: "http://x"}] alone
    sends an INSERT whose values are ["A"], the empty description,
    ["http://x"], and ["Otro"] for both the type and the platform, and
    answers 201 with the row read back by the new identifier.  On the
    reference database the row stored and returned has [description = ""],
    [type = "Otro"] and [platform = "Otro"]. *)
Theorem postResources_defaults :
  let insert :=
    statement_of Query Resources.INSERT
                 [str "A"; VStr []; str "http://x"; str "Otro"; str "Otro"] in
  (forall (pool : Pool) (w : world) hdr d insertedId rows d' row,
      run_statement (db w) insert = (Resolved hdr, d) ->
      get_prop hdr "insertId" = Normal insertedId ->
      let reread := statement_of Query Resources.SELECT_BY_ID [insertedId] in
      run_statement d reread = (Resolved rows, d') ->
      get_first rows = Normal row ->
      Resources.postResources minimal_resource w
        = respond 201 row (after (after w insert d) reread d')) /\
  (forall s : Mem.state,
      Mem.failure s = None ->
      let row :=
        {| Mem.res_id := Mem.next_resource_id s; Mem.res_title := js "A";
           Mem.res_description := []; Mem.res_url := js "http://x";
           Mem.res_type := js "Otro"; Mem.res_platform := js "Otro";
           Mem.res_created_at := Mem.clock s |} in
      exists w',
        Resources.postResources minimal_resource (Mem.start s)
          = respond 201 (Mem.resource_json row) w' /\
        Mem.resources (db w') = row :: Mem.resources s).
Proof.
  intros insert.
  assert (Hgeneric : forall (pool : Pool) (w : world) hdr d insertedId rows d' row,
      run_statement (db w) insert = (Resolved hdr, d) ->
      get_prop hdr "insertId" = Normal insertedId ->
      let reread := statement_of Query Resources.SELECT_BY_ID [insertedId] in
      run_statement d reread = (Resolved rows, d') ->
      get_first rows = Normal row ->
      Resources.postResources minimal_resource w
        = respond 201 row (after (after w insert d) reread d')).
  { intros pool w.
    refine (proj1 (postResources_insert minimal_resource
                     [field "title" (str "A"); field "url" (str "http://x")]
                     (js "A") (js "http://x") (VStr []) (str "Otro") (str "Otro") w
                     eq_refl eq_refl _ eq_refl _ eq_refl eq_refl eq_refl));
      discriminate. }
  split; [exact Hgeneric|].
  intros s Hok row.
  destruct (Mem_reread_resource
              (Mem.with_resources s (row :: Mem.resources s) (Mem.next_resource_id s + 1))
              row (Mem.resources s) Hok eq_refl) as [rows [Hreread Hfirst]].
  eexists. split.
  - apply (Hgeneric Mem.pool (Mem.start s) _ _ _ rows _ _
                    (Mem_insert_resource s _ _ _ _ _ Hok) eq_refl Hreread Hfirst).
  - reflexivity.
Qed.

(** C2.  A resource whose title is made of spaces passes the check of line
    76, which looks at the title before it is trimmed: the INSERT is sent
    with an empty title whatever the database then answers, and on the
    reference database the row is stored and returned with 201.  The user
    creation of part_000 and part_001, which trims before it checks,
    answers 400 to a name made of spaces. *)
Theorem postResources_blank_title_inserted :
  let insert :=
    statement_of Query Resources.INSERT
                 [VStr []; VStr []; str "http://x"; str "Otro"; str "Otro"] in
  let row :=
    {| Mem.res_id := 1; Mem.res_title := []; Mem.res_description := [];
       Mem.res_url := js "http://x"; Mem.res_type := js "Otro";
       Mem.res_platform := js "Otro"; Mem.res_created_at := 0 |} in
  absent_or_blank (str "  ") /\
  (forall (pool : Pool) (w : world),
      exists r w' more,
        Resources.postResources blank_title_resource w = (Normal r, w') /\
        status r <> 400 /\
        issued w' = issued w ++ insert :: more) /\
  (exists w',
      Resources.postResources blank_title_resource (Mem.start Mem.empty)
        = respond 201 (Mem.resource_json row) w' /\
      Mem.resources (db w') = [row]) /\
  Part000.postUsers blank_user (Mem.start Mem.empty)
    = respond 400 (failure_body "Nombre no válido") (Mem.start Mem.empty) /\
  Part001.postUsers blank_user (Mem.start Mem.empty)
    = respond 400 (failure_body "Nombre no válido") (Mem.start Mem.empty).
Proof.
  intros insert row.
  split; [right; right; exists (js "  "); split; reflexivity|].
  split; [|split; [eexists; split; vm_compute; reflexivity | split; vm_compute; reflexivity]].
  intros pool w. unfold Resources.postResources. run_handler.
  known (get_prop (body blank_title_resource) "title") (Normal (str "  ")).
  known (get_prop (body blank_title_resource) "description") (Normal VUndefined).
  known (get_prop (body blank_title_resource) "url") (Normal (str "http://x")).
  known (get_prop (body blank_title_resource) "type") (Normal VUndefined).
  known (get_prop (body blank_title_resource) "platform") (Normal VUndefined).
  known (negb (ToBoolean (str "  ")) || negb (ToBoolean (str "http://x"))) false.
  known (call_trim (str "  ")) (Normal (VStr [])).
  known (call_trim (js_or VUndefined (VStr []))) (Normal (VStr [])).
  known (call_trim (str "http://x")) (Normal (str "http://x")).
  known (call_trim (js_or VUndefined (str "Otro"))) (Normal (str "Otro")).
  unfold send at 1.
  destruct (run_statement (db w) _) as [[hdr | e] d]; cbv beta iota;
    try (destruct (get_prop hdr "insertId") as [i | e]; cbv beta iota;
         try (unfold send; cbn [db issued rejected console];
              destruct (run_statement d _) as [[rows | e] d']; cbv beta iota;
              try (destruct (get_first rows) as [first | e]; cbv beta iota)));
    do 3 eexists;
    (split; [reflexivity | split; [simpl; lia |]]);
    cbn [issued]; rewrite <- ?app_assoc; reflexivity.
Qed.

(** C10, the claim as it stands fails: the digits of [9007199254740993abc]
    denote 2^53 + 1, which no double holds, and the identifier resolved is
    2^53. *)
Lemma getId_inexact_identifier :
  getId (only_path_id inexact_id) = Normal (num 9007199254740992) /\
  digits_value (js "9007199254740993") = 9007199254740993 /\
  getId (only_path_id inexact_id)
    <> Normal (num (digits_value (js "9007199254740993"))).
Proof.
  assert (H : getId (only_path_id inexact_id) = Normal (num 9007199254740992))
    by (vm_compute; reflexivity).
  split; [exact H|]. split; [vm_compute; reflexivity|].
  rewrite H. vm_compute. discriminate.
Qed.

(** Digits beyond every double give [Infinity], which [getId] turns into "no
    identifier": the delete of the users variants answers 400. *)
Lemma getId_unbounded_identifier :
  getId (only_path_id (nines ++ js "abc")) = Normal VNull.
Proof. vm_compute. reflexivity. Qed.

(* ================================================================= *)
(** ** Trimming *)

Lemma trimStart_clean (s : jsstring) : starts_clean (trimStart s) = true.
Proof.
  induction s as [|c s IH]; simpl; [reflexivity|].
  destruct (is_white_space c) eqn:Hc; [exact IH|].
  simpl. rewrite Hc. reflexivity.
Qed.

Lemma trimStart_keeps_last (l : jsstring) (c : N) :
  is_white_space c = false -> exists l', trimStart (l ++ [c]) = l' ++ [c].
Proof.
  intros Hc. induction l as [|a l IH]; simpl.
  - rewrite Hc. exists []. reflexivity.
  - destruct (is_white_space a); [exact IH|].
    exists (a :: l). reflexivity.
Qed.

Lemma trimStart_fixed (s : jsstring) : starts_clean s = true -> trimStart s = s.
Proof.
  destruct s as [|c s]; simpl; [reflexivity|].
  destruct (is_white_space c); [discriminate | reflexivity].
Qed.

Lemma trim_outer_trimmed (s : jsstring) : outer_trimmed (trim s) = true.
Proof.
  unfold outer_trimmed, trim, trimEnd.
  rewrite rev_involutive, trimStart_clean, andb_true_r.
  pose proof (trimStart_clean s) as Hclean.
  destruct (trimStart s) as [|c t]; [reflexivity|].
  simpl in Hclean. apply negb_true_iff in Hclean.
  simpl rev. destruct (trimStart_keeps_last (rev t) c Hclean) as [l' ->].
  rewrite rev_app_distr. simpl. rewrite Hclean. reflexivity.
Qed.

Lemma trim_fixed (s : jsstring) : outer_trimmed s = true -> trim s = s.
Proof.
  unfold outer_trimmed, trim, trimEnd. intros H.
  apply andb_true_iff in H. destruct H as [Hs Hr].
  rewrite (trimStart_fixed s Hs), (trimStart_fixed (rev s) Hr).
  apply rev_involutive.
Qed.

Lemma trimStart_white_space (ws s : jsstring) :
  all_white_space ws = true -> trimStart (ws ++ s) = trimStart s.
Proof.
  induction ws as [|c ws IH]; simpl; [reflexivity|].
  intros H. apply andb_true_iff in H. destruct H as [-> H]. exact (IH H).
Qed.

(** What [(req.body?.name || "").trim()] can be. *)
Lemma body_name_shape (req : request) (a : jsval) :
  body_name req = Normal a -> exists s, a = VStr (trim s).
Proof.
  unfold body_name. destruct (opt_prop_total (body req) "name") as [n ->]. simpl.
  unfold js_or. destruct (ToBoolean n) eqn:Hn.
  - destruct n; simpl; try discriminate. intros H. injection H as <-. eauto.
  - simpl. intros H. injection H as <-. exists []. reflexivity.
Qed.

Lemma body_name_stored (req : request) (a : jsval) :
  body_name req = Normal a ->
  negb (ToBoolean a) = false ->
  exists n, a = VStr n /\ n <> [] /\ outer_trimmed n = true.
Proof.
  intros Hname Htruthy. destruct (body_name_shape req a Hname) as [s ->].
  exists (trim s). split; [reflexivity|]. split; [|apply trim_outer_trimmed].
  intros Hempty. rewrite Hempty in Htruthy. discriminate.
Qed.

Lemma getId_value (req : request) (id : jsval) :
  getId req = Normal id -> id = VNull \/ Number_isInteger id = true.
Proof.
  rewrite getId_resolve. unfold resolve.
  destruct (first_present (id_locations req)) as [v|].
  - destruct (parseInt v) as [n|e]; simpl; [|discriminate].
    destruct n; simpl; intros H; injection H as <-; auto.
  - intros H. injection H as <-. auto.
Qed.

(* ================================================================= *)
(** ** Every operation, every request *)

Ltac summarise :=
  do 3 eexists; split; [reflexivity|];
  split; [cbn [In status]; auto 6|];
  split; [cbn [issued];
          first [ symmetry; apply app_nil_r
                | reflexivity
                | rewrite <- app_assoc; reflexivity ]|];
  split; [simpl; lia|];
  cbn [status]; intros H; first [discriminate H | reflexivity].

Section Summary.
Context {pool : Pool}.

Lemma handler_summary
      (h : handler) (allowed : list Z) (bound : nat) (req : request) (w : world) :
  In (h, allowed, bound) handler_contracts ->
  exists r w' sent,
    h req w = (Normal r, w') /\
    In (status r) allowed /\
    issued w' = issued w ++ sent /\
    (List.length sent <= bound)%nat /\
    (status r = 400 -> w' = w).
Proof.
  unfold handler_contracts. cbn [In]. intros Hin.
  repeat destruct Hin as [Hin | Hin]; try contradiction;
    injection Hin as <- <- <-.
  - unfold Part000.getUsers. run_handler. unfold send. explore; summarise.
  - unfold Part000.postUsers. run_handler. unfold send. explore; summarise.
  - unfold Part000.updateUserHandler. run_handler. unfold send. explore; summarise.
  - unfold Part000.deleteUsers. run_handler. unfold send. explore; summarise.
  - unfold Part001.healthz. run_handler. unfold send. explore; summarise.
  - unfold Part001.getUsers. run_handler. unfold send. explore; summarise.
  - unfold Part001.postUsers. run_handler. unfold send. explore; summarise.
  - unfold Part001.updateUserHandler. run_handler. unfold send. explore; summarise.
  - unfold Part001.deleteUsers. run_handler. unfold send. explore; summarise.
  - unfold Resources.getResources. run_handler. unfold send. explore; summarise.
  - unfold Resources.postResources. run_handler. unfold send. explore; summarise.
  - unfold Resources.deleteResources. run_handler. unfold send. explore; summarise.
Qed.
End Summary.

Section MoreOperations.
Context {pool : Pool}.

(** X1.  Whatever the request and the database, an operation answers, and
    with one of the statuses of its row in [handler_contracts]: a list
    only with 200 or 500, the health check only with 200 or 503, a creation
    of a resource only with 201, 400 or 500, and so on. *)
Theorem handler_statuses
        (h : handler) (allowed : list Z) (bound : nat) (req : request) (w : world) :
  In (h, allowed, bound) handler_contracts ->
  exists r w', h req w = (Normal r, w') /\ In (status r) allowed.
Proof.
  intros Hin.
  destruct (handler_summary h allowed bound req w Hin) as [r [w' [sent [Hrun [Hst _]]]]].
  eauto.
Qed.

(** X2.  An operation that answers 400 has changed nothing: no statement
    was sent, the database is as it was and nothing was written to the
    console. *)
Theorem refusal_changes_nothing
        (h : handler) (allowed : list Z) (bound : nat)
        (req : request) (w w' : world) (r : response) :
  In (h, allowed, bound) handler_contracts ->
  h req w = (Normal r, w') ->
  status r = 400 ->
  w' = w.
Proof.
  intros Hin Hrun H400.
  destruct (handler_summary h allowed bound req w Hin)
    as [r0 [w0 [sent [Hrun0 [_ [_ [_ Hsame]]]]]]].
  rewrite Hrun in Hrun0. injection Hrun0 as <- <-. exact (Hsame H400).
Qed.

(** X3.  No operation sends more statements than its bound in
    [handler_contracts]: one for a list, the health check, a user creation
    and a delete, two for an update and for a resource creation. *)
Theorem statements_are_bounded
        (h : handler) (allowed : list Z) (bound : nat)
        (req : request) (w w' : world) (r : response) :
  In (h, allowed, bound) handler_contracts ->
  h req w = (Normal r, w') ->
  exists sent, issued w' = issued w ++ sent /\ (List.length sent <= bound)%nat.
Proof.
  intros Hin Hrun.
  destruct (handler_summary h allowed bound req w Hin)
    as [r0 [w0 [sent [Hrun0 [_ [Hsent [Hbound _]]]]]]].
  rewrite Hrun in Hrun0. injection Hrun0 as <- <-. eauto.
Qed.

(** X4.  A user creation with a name that is not empty once trimmed sends
    one INSERT with the trimmed name.  One row affected: 200.  Any other
    [affectedRows]: 500, with ["Error al insertar usuario"] in part_000 and
    ["No se pudo insertar"] in part_001.  A rejected INSERT: 500. *)
Theorem postUsers_result_policy (req : request) (s : jsstring) (w : world) :
  opt_prop (body req) "name" = Normal (VStr s) ->
  trim s <> [] ->
  let insert :=
    statement_of Execute "INSERT INTO users (name) VALUES (?)" [VStr (trim s)] in
  (forall hdr d,
      run_statement (db w) insert = (Resolved hdr, d) ->
      get_prop hdr "affectedRows" = Normal (num 1) ->
      Part000.postUsers req w
        = respond 200 (success_body "Usuario agregado correctamente") (after w insert d) /\
      Part001.postUsers req w
        = respond 200 (success_body "Usuario agregado correctamente") (after w insert d)) /\
  (forall hdr d a,
      run_statement (db w) insert = (Resolved hdr, d) ->
      get_prop hdr "affectedRows" = Normal a ->
      strict_equals a (num 1) = false ->
      Part000.postUsers req w
        = respond 500 (failure_body "Error al insertar usuario") (after w insert d) /\
      Part001.postUsers req w
        = respond 500 (failure_body "No se pudo insertar") (after w insert d)) /\
  (forall e d,
      run_statement (db w) insert = (Rejected e, d) ->
      Part000.postUsers req w
        = respond 500 (failure_body "Error al insertar usuario") (failed w insert e d) /\
      Part001.postUsers req w
        = respond 500 (failure_body "Error interno") (failed w insert e d)).
Proof.
  intros Hraw Hs insert. subst insert.
  destruct (body_name_valid req s Hraw Hs) as [Hname Htruthy].
  repeat split; intros;
    match goal with
    | |- context [Part000.postUsers] => unfold Part000.postUsers
    | |- context [Part001.postUsers] => unfold Part001.postUsers
    end;
    run_handler; step Hname; step Htruthy; cbv beta iota delta [negb];
    run_with_answers;
    try match goal with
        | H : strict_equals _ _ = false |- _ => rewrite H
        end;
    reflexivity.
Qed.

(** X5.  The name a user creation or an update sends to the database is
    never empty and never has white space at either end; the identifier an
    update sends is always an integer. *)
Theorem stored_names_are_trimmed (req : request) (w : world) :
  (exists r w',
      Part000.postUsers req w = (Normal r, w') /\
      (issued w' = issued w \/
       exists n,
         issued w' = issued w
                     ++ [statement_of Execute "INSERT INTO users (name) VALUES (?)" [VStr n]] /\
         n <> [] /\ outer_trimmed n = true)) /\
  (exists r w',
      Part001.postUsers req w = (Normal r, w') /\
      (issued w' = issued w \/
       exists n,
         issued w' = issued w
                     ++ [statement_of Execute "INSERT INTO users (name) VALUES (?)" [VStr n]] /\
         n <> [] /\ outer_trimmed n = true)) /\
  (exists r w',
      Part000.updateUserHandler req w = (Normal r, w') /\
      (issued w' = issued w \/
       exists n id more,
         issued w' = issued w
                     ++ statement_of Execute "UPDATE users SET name = ? WHERE id = ?"
                                     [VStr n; id] :: more /\
         n <> [] /\ outer_trimmed n = true /\ Number_isInteger id = true)) /\
  (exists r w',
      Part001.updateUserHandler req w = (Normal r, w') /\
      (issued w' = issued w \/
       exists n id more,
         issued w' = issued w
                     ++ statement_of Execute "UPDATE users SET name = ? WHERE id = ?"
                                     [VStr n; id] :: more /\
         n <> [] /\ outer_trimmed n = true /\ Number_isInteger id = true)).
Proof.
  repeat split;
    match goal with
    | |- context [Part000.postUsers] => unfold Part000.postUsers
    | |- context [Part001.postUsers] => unfold Part001.postUsers
    | |- context [Part000.updateUserHandler] => unfold Part000.updateUserHandler
    | |- context [Part001.updateUserHandler] => unfold Part001.updateUserHandler
    end;
    run_handler; unfold send; explore;
    do 2 eexists; (split; [reflexivity|]); cbn [issued];
    first
      [ left; reflexivity
      | right;
        match goal with
        | H1 : body_name req = Normal ?a, H2 : negb (ToBoolean ?a) = false |- _ =>
            destruct (body_name_stored req a H1 H2) as [n [-> [Hne Htrimmed]]]
        end;
        first
          [ exists n; split; [reflexivity | split; assumption]
          | match goal with
            | H : negb (Number_isInteger ?i) = false |- _ =>
                apply negb_false_iff in H;
                exists n, i; eexists;
                split; [rewrite <- ?app_assoc; reflexivity
                       | split; [assumption | split; assumption]]
            end ] ].
Qed.

(** X6.  An update checks the identifier first: without one the answer is
    400 ["ID no proporcionado"], whatever the name; with one and a name
    that is absent or blank it is 400 ["Nombre no válido"].  Nothing is
    sent in either case. *)
Theorem update_validation_order (req : request) (w : world) :
  (forall a,
      getId req = Normal VNull ->
      body_name req = Normal a ->
      Part000.updateUserHandler req w
        = respond 400 (failure_body "ID no proporcionado") w /\
      Part001.updateUserHandler req w
        = respond 400 (failure_body "ID no proporcionado") w) /\
  (forall n v,
      getId req = Normal (VNum n) ->
      opt_prop (body req) "name" = Normal v ->
      absent_or_blank v ->
      Part000.updateUserHandler req w
        = respond 400 (failure_body "Nombre no válido") w /\
      Part001.updateUserHandler req w
        = respond 400 (failure_body "Nombre no válido") w).
Proof.
  split.
  - intros a Hid Hname.
    unfold Part000.updateUserHandler, Part001.updateUserHandler. run_handler.
    rewrite Hid, Hname. split; reflexivity.
  - intros n v Hid Hv Hblank.
    pose proof (getId_integer req n Hid) as Hint.
    unfold Part000.updateUserHandler, Part001.updateUserHandler. run_handler.
    rewrite Hid, (body_name_blank req v Hv Hblank). cbv beta iota.
    rewrite Hint. split; reflexivity.
Qed.

Lemma body_name_throws (req : request) (v : jsval) :
  opt_prop (body req) "name" = Normal v ->
  truthy_non_string v ->
  exists e, body_name req = Throw e.
Proof.
  unfold body_name. intros -> [Htruthy Hnot]. simpl. unfold js_or. rewrite Htruthy.
  destruct v; simpl; eauto; try discriminate.
  elim (Hnot s). reflexivity.
Qed.

(** X7.  A name that is truthy but not a string (a number, [true], an
    array, an object) has no [trim]: creation and update answer 500 and
    send nothing; the update does so even when the identifier is missing,
    since the name is read before the identifier is checked. *)
Theorem non_string_name_is_a_server_error (req : request) (v : jsval) (w : world) :
  opt_prop (body req) "name" = Normal v ->
  truthy_non_string v ->
  Part000.postUsers req w = respond 500 (failure_body "Error al insertar usuario") w /\
  Part001.postUsers req w = respond 500 (failure_body "Error interno") w /\
  Part000.updateUserHandler req w
    = respond 500 (failure_body "Error al actualizar usuario") w /\
  Part001.updateUserHandler req w = respond 500 (failure_body "Error interno") w.
Proof.
  intros Hv Hkind. destruct (body_name_throws req v Hv Hkind) as [e He].
  unfold Part000.postUsers, Part001.postUsers,
         Part000.updateUserHandler, Part001.updateUserHandler.
  run_handler. rewrite He.
  destruct (getId req); repeat split; reflexivity.
Qed.

(** X8.  A list answers 200 with exactly what the database returned for
    its one SELECT, in the order the database gave. *)
Theorem lists_return_the_rows (req : request) (w : world) (rows : jsval) (d : database) :
  (let list := statement_of Query "SELECT id, name FROM users ORDER BY id DESC" [] in
   run_statement (db w) list = (Resolved rows, d) ->
   Part000.getUsers req w = respond 200 rows (after w list d) /\
   Part001.getUsers req w = respond 200 rows (after w list d)) /\
  (let list := statement_of Query Resources.SELECT_ALL [] in
   run_statement (db w) list = (Resolved rows, d) ->
   Resources.getResources req w = respond 200 rows (after w list d)).
Proof.
  split; intros list Hrows; subst list;
    unfold Part000.getUsers, Part001.getUsers, Resources.getResources;
    run_handler; rewrite ?(send_resolved _ _ _ _ _ _ Hrows); repeat split; reflexivity.
Qed.

(** X9.  What counts as "not found" differs.  The users variants answer
    404 unless [affectedRows] is exactly 1; the resources variant answers
    200 unless [affectedRows] is exactly 0, also when the result has no
    such field. *)
Theorem delete_not_found_rule
        (req : request) (n : number) (w : world) (hdr a : jsval) (d : database) :
  get_prop hdr "affectedRows" = Normal a ->
  (getId req = Normal (VNum n) ->
   let remove := statement_of Execute "DELETE FROM users WHERE id = ?" [VNum n] in
   run_statement (db w) remove = (Resolved hdr, d) ->
   strict_equals a (num 1) = false ->
   Part000.deleteUsers req w
     = respond 404 (failure_body "Usuario no encontrado") (after w remove d) /\
   Part001.deleteUsers req w
     = respond 404 (failure_body "Usuario no encontrado") (after w remove d)) /\
  (parseInt (member (params req) "id") = Normal n ->
   n <> NaN ->
   let remove := statement_of Query Resources.DELETE_BY_ID [VNum n] in
   run_statement (db w) remove = (Resolved hdr, d) ->
   strict_equals a (num 0) = false ->
   Resources.deleteResources req w
     = respond 200 (message_body "Recurso eliminado correctamente") (after w remove d)).
Proof.
  intros Ha. split.
  - intros Hid remove Hrun Hne. subst remove.
    pose proof (getId_integer req n Hid) as Hint.
    split; [unfold Part000.deleteUsers | unfold Part001.deleteUsers];
      run_handler; step Hid; step Hint; cbv beta iota delta [negb];
      step Hrun; step Ha; rewrite Hne; reflexivity.
  - intros Hid Hnan remove Hrun Hne. subst remove.
    assert (Hn : Number_isNaN (VNum n) = false) by (destruct n; simpl; congruence).
    unfold Resources.deleteResources. run_handler.
    step Hid. step Hn. step Hrun. step Ha. rewrite Hne. reflexivity.
Qed.

End MoreOperations.

(* ================================================================= *)
(** ** Resources: what is inserted *)

Lemma call_trim_shape (v a : jsval) :
  call_trim v = Normal a -> exists s, v = VStr s /\ a = VStr (trim s).
Proof.
  destruct v; simpl; try discriminate. intros H. injection H as <-. eauto.
Qed.

Lemma optional_value_trimmed (v : jsval) (default : string) (a : jsstring) :
  trim (js default) = js default ->
  optional_value v default a ->
  call_trim (js_or v (str default)) = Normal (VStr a).
Proof.
  intros Hdefault [[Hfalsy ->] | [s [-> [Hs ->]]]]; unfold js_or.
  - rewrite Hfalsy. simpl. unfold str. rewrite Hdefault. reflexivity.
  - destruct s; [congruence | reflexivity].
Qed.

Lemma truthy_string (v : jsval) (s : jsstring) :
  v = VStr s -> negb (ToBoolean v) = false -> s <> [].
Proof. intros -> H Hs. subst s. discriminate H. Qed.

Section MoreResources.
Context {pool : Pool}.

(** X10.  With a title and a url that are non-empty strings, the first
    statement of a resource creation is the INSERT of the trimmed title
    and url and of the optional fields: the default (empty description,
    ["Otro"]) for one that is missing, [null] or empty, the trimmed string
    otherwise, so that a type of spaces only is stored empty, not as
    ["Otro"].  The answer is never 400. *)
Theorem resource_insert_values
        (req : request) (props : object) (t u a2 a4 a5 : jsstring) (w : world) :
  body req = VObj props ->
  member props "title" = VStr t -> t <> [] ->
  member props "url" = VStr u -> u <> [] ->
  optional_value (member props "description") EmptyString a2 ->
  optional_value (member props "type") "Otro" a4 ->
  optional_value (member props "platform") "Otro" a5 ->
  let insert :=
    statement_of Query Resources.INSERT
                 [VStr (trim t); VStr a2; VStr (trim u); VStr a4; VStr a5] in
  exists r w' more,
    Resources.postResources req w = (Normal r, w') /\
    status r <> 400 /\
    issued w' = issued w ++ insert :: more.
Proof.
  intros Hbody Ht Htne Hu Hune H2 H4 H5 insert. subst insert.
  assert (Htt : ToBoolean (VStr t) = true) by (destruct t; [congruence | reflexivity]).
  assert (Hut : ToBoolean (VStr u) = true) by (destruct u; [congruence | reflexivity]).
  apply (optional_value_trimmed _ EmptyString _ eq_refl) in H2.
  apply (optional_value_trimmed _ "Otro" _ eq_refl) in H4.
  apply (optional_value_trimmed _ "Otro" _ eq_refl) in H5.
  change (str EmptyString) with (VStr []) in H2.
  unfold Resources.postResources. run_handler.
  rewrite Hbody, !get_prop_object. cbv beta iota.
  rewrite Ht, Hu, Htt, Hut. cbv beta iota delta [negb orb].
  change (call_trim (VStr t)) with (Normal (VStr (trim t))).
  change (call_trim (VStr u)) with (Normal (VStr (trim u))).
  rewrite H2, H4, H5. cbv beta iota.
  unfold send at 1, statement_of.
  destruct (run_statement (db w) _) as [[hdr | e] d]; cbv beta iota;
    try (destruct (get_prop hdr "insertId") as [i | e]; cbv beta iota;
         try (unfold send; cbn [db issued rejected console];
              destruct (run_statement d _) as [[rows | e] d']; cbv beta iota;
              try (destruct (get_first rows) as [first | e]; cbv beta iota)));
    do 3 eexists;
    (split; [reflexivity | split; [simpl; lia |]]);
    cbn [issued]; rewrite <- ?app_assoc; reflexivity.
Qed.

(** X11.  A resource creation sends nothing unless the title and the url
    of the body are non-empty strings, and what it then inserts are five
    strings without white space at either end. *)
Theorem resource_insert_needs_strings (req : request) (w : world) :
  exists r w',
    Resources.postResources req w = (Normal r, w') /\
    (issued w' = issued w \/
     exists t u a2 a4 a5 more,
       get_prop (body req) "title" = Normal (VStr t) /\ t <> [] /\
       get_prop (body req) "url" = Normal (VStr u) /\ u <> [] /\
       issued w' = issued w
                   ++ statement_of Query Resources.INSERT
                        [VStr (trim t); VStr a2; VStr (trim u); VStr a4; VStr a5]
                      :: more /\
       outer_trimmed a2 = true /\ outer_trimmed a4 = true /\ outer_trimmed a5 = true).
Proof.
  unfold Resources.postResources. run_handler. unfold send. explore;
    do 2 eexists; (split; [reflexivity|]); cbn [issued];
    first
      [ left; reflexivity
      | right;
        repeat match goal with
               | H : call_trim _ = Normal _ |- _ =>
                   apply call_trim_shape in H; destruct H as [? [? ->]]
               end;
        match goal with
        | H : negb (ToBoolean ?x) || negb (ToBoolean ?y) = false |- _ =>
            apply orb_false_iff in H; destruct H as [Hx Hy]
        end;
        subst;
        do 6 eexists;
        split; [reflexivity|];
        split; [eapply truthy_string; [reflexivity | eassumption]|];
        split; [reflexivity|];
        split; [eapply truthy_string; [reflexivity | eassumption]|];
        split; [rewrite <- ?app_assoc; reflexivity|];
        repeat split; apply trim_outer_trimmed ].
Qed.

(** X12.  A request whose body was not parsed ([undefined]) cannot be
    destructured: the resource creation answers 500 and writes the error
    to the console, where the users variants, which read the body with
    [?.], answer 400.  Nothing is sent either way. *)
Theorem missing_body (req : request) (w : world) :
  body req = VUndefined ->
  (exists e,
      Resources.postResources req w
        = respond 500 (message_body "Error al crear el recurso")
            (logged w "Error al crear recurso:" e)) /\
  Part000.postUsers req w = respond 400 (failure_body "Nombre no válido") w /\
  Part001.postUsers req w = respond 400 (failure_body "Nombre no válido") w.
Proof.
  intros Hbody. split.
  - unfold Resources.postResources. run_handler. rewrite Hbody. simpl.
    eexists. reflexivity.
  - unfold Part000.postUsers, Part001.postUsers, body_name. run_handler.
    rewrite Hbody. split; reflexivity.
Qed.

End MoreResources.

(* ================================================================= *)
(** ** Identifiers: sign, white space, and values that cannot be read *)

Lemma parseInt10_negative (ws ds rest : jsstring) :
  all_white_space ws = true ->
  ds <> [] ->
  all_digits ds = true ->
  take_digits rest = [] ->
  0 < digits_value ds <= exact_limit ->
  parseInt10 (ws ++ 45%N :: ds ++ rest) = Int (- digits_value ds).
Proof.
  intros Hws Hne Hds Hrest [Hpos Hle].
  unfold parseInt10. rewrite (trimStart_white_space ws _ Hws).
  change (trimStart (45%N :: ds ++ rest)) with (45%N :: ds ++ rest).
  change (strip_sign (45%N :: ds ++ rest)) with (true, ds ++ rest).
  cbv beta iota.
  rewrite (take_digits_app ds rest Hds Hrest).
  destruct ds as [|c ds]; [congruence|].
  destruct (Z.eqb_spec (digits_value (c :: ds)) 0) as [H0 | _]; [lia|].
  rewrite (round_magnitude_exact _ Hle). reflexivity.
Qed.

Lemma parseInt10_no_numeral (s : jsstring) : no_numeral s -> parseInt10 s = NaN.
Proof.
  unfold no_numeral, parseInt10. destruct (strip_sign (trimStart s)) as [neg t].
  simpl. intros ->. reflexivity.
Qed.

Section MoreIdentifiers.
Context {pool : Pool}.

(** X13.  An identifier may carry leading white space and a minus sign: it
    resolves to the negative integer, and the delete is sent with it. *)
Theorem getId_negative_identifier
        (req : request) (ws ds rest : jsstring) (w : world) :
  first_present (id_locations req) = Some (VStr (ws ++ 45%N :: ds ++ rest)) ->
  all_white_space ws = true ->
  ds <> [] ->
  all_digits ds = true ->
  take_digits rest = [] ->
  0 < digits_value ds <= exact_limit ->
  let id := num (- digits_value ds) in
  let remove := statement_of Execute "DELETE FROM users WHERE id = ?" [id] in
  getId req = Normal id /\
  (exists r w', Part000.deleteUsers req w = (Normal r, w') /\
                status r <> 400 /\ issued w' = issued w ++ [remove]) /\
  (exists r w', Part001.deleteUsers req w = (Normal r, w') /\
                status r <> 400 /\ issued w' = issued w ++ [remove]).
Proof.
  intros Hraw Hws Hne Hds Hrest Hrange id remove.
  assert (Hid : getId req = Normal id).
  { rewrite getId_resolve, Hraw. unfold resolve, parseInt. simpl ToString.
    unfold cbind. rewrite (parseInt10_negative ws ds rest Hws Hne Hds Hrest Hrange).
    reflexivity. }
  split; [exact Hid|].
  exact (deleteUsers_reaches_database req _ w Hid).
Qed.

(** X14.  The first value present decides alone: when it is a string in
    which no number can be read (the empty string of [?id=], for
    instance), there is no identifier, whatever the later places hold, and
    the delete answers 400 without sending anything. *)
Theorem unreadable_identifier_is_final (req : request) (s : jsstring) (w : world) :
  first_present (id_locations req) = Some (VStr s) ->
  no_numeral s ->
  getId req = Normal VNull /\
  Part000.deleteUsers req w = respond 400 (failure_body "ID no proporcionado") w /\
  Part001.deleteUsers req w = respond 400 (failure_body "ID no proporcionado") w.
Proof.
  intros Hraw Hs.
  assert (Hid : getId req = Normal VNull).
  { rewrite getId_resolve, Hraw. unfold resolve, parseInt. simpl ToString.
    unfold cbind. rewrite (parseInt10_no_numeral s Hs). reflexivity. }
  split; [exact Hid|].
  exact (deleteUsers_without_id req w Hid).
Qed.

End MoreIdentifiers.

(* ================================================================= *)
(** ** Routing *)

Lemma getId_from_path (x : jsstring) (q : object) (b : jsval) :
  getId {| params := [field "id" (VStr x)]; query := q; body := b |}
    = resolve (Some (VStr x)).
Proof. rewrite getId_resolve. reflexivity. Qed.

Section MoreRouting.
Context {pool : Pool}.

Lemma deleteUsers_depends_on_id (req req' : request) (w : world) :
  getId req = getId req' ->
  Part000.deleteUsers req w = Part000.deleteUsers req' w /\
  Part001.deleteUsers req w = Part001.deleteUsers req' w.
Proof.
  intros Hid. unfold Part000.deleteUsers, Part001.deleteUsers. run_handler.
  rewrite Hid. split; reflexivity.
Qed.

(** X15.  [DELETE /users/x] is decided by the path alone: the query string
    and the body of the request change neither the answer nor the
    effects.  Both users variants. *)
Theorem delete_by_path_ignores_query_and_body
        (x : jsstring) (q q' : object) (b b' : jsval) (w : world) :
  let request_with q b :=
    {| method := DELETE; path := [js "users"; x]; url_query := q; json_body := b |} in
  Part000.app (request_with q b) w = Part000.app (request_with q' b') w /\
  Part001.app (request_with q b) w = Part001.app (request_with q' b') w.
Proof.
  intros request_with. subst request_with.
  assert (Hid : getId {| params := [field "id" (VStr x)]; query := q; body := b |}
                = getId {| params := [field "id" (VStr x)]; query := q'; body := b' |}).
  { rewrite !getId_from_path. reflexivity. }
  destruct (deleteUsers_depends_on_id _ _ w Hid) as [H0 H1].
  unfold Part000.app, Part001.app, Part000.routes, Part001.routes, dispatch.
  simpl. unfold bind. rewrite H0, H1. split; reflexivity.
Qed.

(** X16.  The resources application answers what no route takes with 404
    ["Ruta no encontrada"] and touches nothing: every [PUT] and [PATCH]
    (a resource has no update), a [DELETE /api/resources] without an
    identifier, and every request to a path other than [/] that does not
    begin with [/api/resources], whatever the method (but for [OPTIONS],
    which [cors] answers before the routes).  Path segments are compared
    without regard to letter case, as Express does, and the answer to a
    [HEAD] request goes without its body. *)
Theorem resources_fallback (r : http_request) (w : world) :
  let missing := {| status := 404; payload := message_body "Ruta no encontrada" |} in
  (method r = PUT \/ method r = PATCH ->
   ServerApp.app r w = (Normal missing, w)) /\
  (forall a b : jsstring,
   method r = DELETE ->
   path r = [a; b] ->
   same_segment "api" a = true ->
   same_segment "resources" b = true ->
   ServerApp.app r w = (Normal missing, w)) /\
  (method r <> OPTIONS ->
   path r <> [] ->
   (forall a b rest, path r = a :: b :: rest ->
                     same_segment "api" a && same_segment "resources" b = false) ->
   ServerApp.app r w = (Normal (written (method r) missing), w)).
Proof.
  intros missing. subst missing.
  unfold ServerApp.app, ServerApp.routes, ServerApp.notFound, json.
  cbn [dispatch route_method route_at route_handler].
  repeat split.
  - intros [Hm | Hm]; rewrite Hm; reflexivity.
  - intros a b Hm Hpath Ha Hb. rewrite Hm, Hpath.
    cbn [takes http_method_eqb orb andb match_path strip_prefix].
    rewrite Ha, Hb. reflexivity.
  - intros _ Hpath Hout.
    assert (Hprefix : strip_prefix ["api"; "resources"]%string (path r) = None).
    { destruct (path r) as [|a [|b rest]]; [congruence | | ].
      - cbn [strip_prefix]. destruct (same_segment "api" a); reflexivity.
      - cbn [strip_prefix]. specialize (Hout a b rest eq_refl).
        destruct (same_segment "api" a); [|reflexivity].
        destruct (same_segment "resources" b); [discriminate Hout | reflexivity]. }
    assert (Hroot : match_path (Fixed []) (path r) = None).
    { unfold match_path. destruct (path r); [congruence | reflexivity]. }
    assert (Hlist : match_path (Fixed ["api"; "resources"]%string) (path r) = None).
    { unfold match_path. rewrite Hprefix. reflexivity. }
    assert (Hone : match_path (WithId ["api"; "resources"]%string) (path r) = None).
    { unfold match_path. rewrite Hprefix. reflexivity. }
    destruct (method r);
      cbn [takes http_method_eqb orb andb];
      rewrite ?Hroot, ?Hlist, ?Hone; reflexivity.
Qed.

End MoreRouting.

(* ================================================================= *)
(** ** Configuration *)

Lemma default_port : parseInt (str "3306") = Normal (Int 3306).
Proof. vm_compute. reflexivity. Qed.

(** X17.  server.js and part_001 read the database port in two ways that
    agree on every environment: 3306 when [DB_PORT] is not set or empty,
    and otherwise whatever [parseInt] makes of it, [NaN] included, since
    nothing checks the result. *)
Theorem db_port_agreement (env : environment) :
  ConfigServer.port env = Config001.DB_PORT env /\
  (env "DB_PORT"%string = None \/ env "DB_PORT"%string = Some [] ->
   Config001.DB_PORT env = Normal (Int 3306)) /\
  (forall s, env "DB_PORT"%string = Some s -> s <> [] ->
             Config001.DB_PORT env = Normal (parseInt10 s)).
Proof.
  unfold ConfigServer.port, Config001.DB_PORT, env_get, js_or.
  destruct (env "DB_PORT"%string) as [[|c s]|]; simpl ToBoolean; cbv iota;
    rewrite ?default_port; repeat split; try reflexivity;
    try (intros [H | H]; discriminate H);
    try (intros s0 H Hne; injection H as <-; first [congruence | reflexivity]);
    intros s0 H; discriminate H.
Qed.

Lemma ToBoolean_env (env : environment) (k : string) :
  negb (ToBoolean (env_get env k)) = false <-> is_set env k.
Proof.
  unfold env_get, is_set. destruct (env k) as [[|c s]|]; simpl; split;
    try discriminate; try reflexivity.
  - intros [s [H Hne]]. injection H as <-. congruence.
  - intros _. exists (c :: s). split; [reflexivity | discriminate].
  - intros [s [H _]]. discriminate H.
Qed.

Lemma check_passes (env : environment) (keys : list string) :
  Config001.check env keys = Continue <-> Forall (is_set env) keys.
Proof.
  induction keys as [|k keys IH]; simpl.
  - split; [constructor | reflexivity].
  - destruct (negb (ToBoolean (env_get env k))) eqn:Hk.
    + split; [discriminate|]. intros H. inversion H as [|? ? Hset _]; subst.
      apply ToBoolean_env in Hset. congruence.
    + rewrite IH. split.
      * intros H. constructor; [apply ToBoolean_env; exact Hk | exact H].
      * intros H. inversion H; assumption.
Qed.

Lemma no_warnings (env : environment) (keys : list string) :
  ConfigServer.warnings env keys = [] <-> Forall (is_set env) keys.
Proof.
  induction keys as [|k keys IH]; simpl.
  - split; [constructor | reflexivity].
  - destruct (negb (ToBoolean (env_get env k))) eqn:Hk.
    + split; [discriminate|]. intros H. inversion H as [|? ? Hset _]; subst.
      apply ToBoolean_env in Hset. congruence.
    + rewrite IH. split.
      * intros H. constructor; [apply ToBoolean_env; exact Hk | exact H].
      * intros H. inversion H; assumption.
Qed.

Lemma check_stops (env : environment) (keys : list string) (code : Z) (line : jsstring) :
  Config001.check env keys = Exit code line ->
  code = 1 /\
  exists k rest,
    In k keys /\ ~ is_set env k /\
    line = js "Falta la variable de entorno: " ++ js k /\
    ConfigServer.warnings env keys
      = (js "⚠️ Falta la variable de entorno " ++ js k) :: rest.
Proof.
  induction keys as [|k keys IH]; simpl; [discriminate|].
  destruct (negb (ToBoolean (env_get env k))) eqn:Hk.
  - intros H. injection H as <- <-. split; [reflexivity|].
    exists k. eexists. split; [left; reflexivity|].
    split; [|split; reflexivity].
    intros Hset. apply ToBoolean_env in Hset. congruence.
  - intros H. destruct (IH H) as [Hcode [k' [rest [Hin [Hunset [Hline Hwarn]]]]]].
    split; [exact Hcode|]. exists k', rest.
    split; [right; exact Hin|]. split; [exact Hunset|]. split; assumption.
Qed.

(** X18.  The startup check of part_001 lets the process continue exactly
    when the four database variables are set and not empty, which is
    exactly when server.js prints no warning.  Otherwise it exits with
    code 1 naming the first such variable, the one server.js warns about
    first; an empty [DB_PASS] is enough to stop it. *)
Theorem startup_checks (env : environment) :
  (Config001.check env required_variables = Continue
   <-> Forall (is_set env) required_variables) /\
  (ConfigServer.warnings env required_variables = []
   <-> Config001.check env required_variables = Continue) /\
  (forall code line,
      Config001.check env required_variables = Exit code line ->
      code = 1 /\
      exists k rest,
        In k required_variables /\ ~ is_set env k /\
        line = js "Falta la variable de entorno: " ++ js k /\
        ConfigServer.warnings env required_variables
          = (js "⚠️ Falta la variable de entorno " ++ js k) :: rest).
Proof.
  split; [apply check_passes|]. split.
  - rewrite no_warnings, check_passes. reflexivity.
  - intros code line. apply check_stops.
Qed.

(** X19.  part_000 takes a variable that is set as it is, even when it is
    empty, and falls back to its default only when the variable is not
    set; server.js and part_001 also fall back on an empty [PORT].  The
    three agree on the port unless [PORT] is set to the empty string. *)
Theorem port_defaults (env : environment) :
  ConfigServer.PORT env = Config001.PORT env /\
  (Config000.PORT (Config000.read env) = Config001.PORT env
   <-> env "PORT"%string <> Some []) /\
  (env "PORT"%string = None ->
   Config000.PORT (Config000.read env) = num 3000) /\
  (forall s, env "PORT"%string = Some s ->
             Config000.PORT (Config000.read env) = VStr s).
Proof.
  unfold ConfigServer.PORT, Config001.PORT, Config000.read, env_get, js_or. simpl.
  destruct (env "PORT"%string) as [[|c s]|]; simpl;
    repeat split; try reflexivity; try congruence;
    try discriminate;
    try (intros s0 H; injection H as <-; reflexivity).
  intros H. elim H. reflexivity.
Qed.

(* ================================================================= *)
(** ** Allowed origins *)

Lemma split_pieces (sep : N) (s : jsstring) :
  split sep s <> [] /\
  List.length (split sep s) = S (count_occ N.eq_dec s sep) /\
  Forall (fun piece => ~ In sep piece) (split sep s).
Proof.
  induction s as [|c s [Hne [Hlen Hall]]]; simpl.
  - split; [discriminate|]. split; [reflexivity|]. repeat constructor. intros [].
  - destruct (N.eqb_spec c sep) as [-> | Hc].
    + split; [discriminate|]. split.
      * simpl. rewrite Hlen. destruct (N.eq_dec sep sep); [reflexivity | congruence].
      * constructor; [intros [] | exact Hall].
    + destruct (split sep s) as [|piece rest]; [congruence|].
      split; [discriminate|]. split.
      * simpl in Hlen |- *. rewrite Hlen.
        destruct (N.eq_dec c sep); [congruence | reflexivity].
      * inversion Hall as [|? ? Hpiece Hrest]; subst.
        constructor; [|exact Hrest].
        intros [H | H]; [congruence | exact (Hpiece H)].
Qed.

Lemma In_trimStart (c : N) (s : jsstring) : In c (trimStart s) -> In c s.
Proof.
  induction s as [|a s IH]; simpl; [tauto|].
  destruct (is_white_space a); simpl; [auto | tauto].
Qed.

Lemma In_trim (c : N) (s : jsstring) : In c (trim s) -> In c s.
Proof.
  unfold trim, trimEnd. intros H.
  apply In_trimStart. apply in_rev. apply In_trimStart. apply in_rev in H. exact H.
Qed.

Lemma star_only (s : jsstring) : jsstring_eqb s (js "*") = true <-> s = js "*".
Proof.
  unfold jsstring_eqb. destruct (jsstring_eq_dec s (js "*")); split;
    congruence || discriminate || auto.
Qed.

(** X20.  part_001 restricts the origins unless [FRONT_ORIGIN] is not set,
    empty or exactly ["*"].  The origins it hands to [cors] are the pieces
    between the commas, one more than there are commas, each without a
    comma and without white space at either end. *)
Theorem cors_origins (env : environment) :
  (Config001.cors_origin env = Normal None
   <-> env "FRONT_ORIGIN"%string = None \/
       env "FRONT_ORIGIN"%string = Some [] \/
       env "FRONT_ORIGIN"%string = Some (js "*")) /\
  (forall origins,
      Config001.cors_origin env = Normal (Some origins) ->
      exists s,
        env "FRONT_ORIGIN"%string = Some s /\
        List.length origins = S (count_occ N.eq_dec s 44%N) /\
        Forall (fun o => outer_trimmed o = true /\ ~ In 44%N o) origins).
Proof.
  unfold Config001.cors_origin, Config001.FRONT_ORIGIN, env_get, js_or.
  destruct (env "FRONT_ORIGIN"%string) as [[|c s]|]; simpl ToBoolean; cbv iota.
  - split; [split; [auto | reflexivity]|]. intros origins H. discriminate H.
  - change (strict_equals (VStr (c :: s)) (str "*"))
      with (jsstring_eqb (c :: s) (js "*")).
    destruct (jsstring_eqb (c :: s) (js "*")) eqn:Hstar.
    + apply star_only in Hstar. split.
      * split; [intros _; right; right; congruence | reflexivity].
      * intros origins H. discriminate H.
    + split.
      * split; [discriminate|].
        intros [H | [H | H]]; try discriminate H.
        assert (Heq : c :: s = js "*") by (injection H; intros; subst; reflexivity).
        apply star_only in Heq. congruence.
      * intros origins H. injection H as <-.
        exists (c :: s). split; [reflexivity|].
        destruct (split_pieces 44%N (c :: s)) as [_ [Hlen Hall]].
        split; [rewrite length_map; exact Hlen|].
        apply Forall_map. apply Forall_impl with (2 := Hall).
        intros piece Hpiece. split; [apply trim_outer_trimmed|].
        intros H. exact (Hpiece (In_trim _ _ H)).
  - split; [split; [auto | reflexivity]|]. intros origins H. discriminate H.
Qed.

(* ================================================================= *)
(** ** Identifiers that are numbers or arrays *)

Lemma parseInt10_digits (ds rest : jsstring) :
  ds <> [] ->
  all_digits ds = true ->
  take_digits rest = [] ->
  digits_value ds <= exact_limit ->
  parseInt10 (ds ++ rest) = Int (digits_value ds).
Proof.
  intros Hne Hds Hrest Hle.
  destruct ds as [|c ds]; [congruence|].
  assert (Hc : is_digit c = true).
  { simpl in Hds. apply andb_true_iff in Hds. tauto. }
  unfold parseInt10.
  change ((c :: ds) ++ rest) with (c :: (ds ++ rest)).
  simpl trimStart. rewrite (digit_not_space c Hc).
  rewrite (digit_not_sign c (ds ++ rest) Hc).
  change (c :: (ds ++ rest)) with ((c :: ds) ++ rest).
  rewrite (take_digits_app (c :: ds) rest Hds Hrest).
  destruct (Z.eqb_spec (digits_value (c :: ds)) 0) as [-> | _]; [reflexivity|].
  rewrite (round_magnitude_exact _ Hle). reflexivity.
Qed.

Lemma js_cons (a : ascii) (s : string) :
  (N_of_ascii a <? 128)%N = true ->
  js (String a s) = N_of_ascii a :: js s.
Proof. unfold js. simpl. intros ->. reflexivity. Qed.

(** The digits that [number_to_string] writes are read back by
    [digits_value]. *)
Lemma decimal_digits_acc (u : Decimal.uint) (acc : positive) :
  fold_left (fun a c => a * 10 + (Z.of_N c - 48))
            (js (NilEmpty.string_of_uint u)) (Z.pos acc)
  = Z.pos (Pos.of_uint_acc u acc).
Proof.
  revert acc. induction u; intros acc; simpl NilEmpty.string_of_uint;
    try reflexivity;
    rewrite js_cons by reflexivity; cbn [fold_left Pos.of_uint_acc];
    rewrite <- IHu; f_equal;
    match goal with
    | |- context [Z.of_N (N_of_ascii ?a)] =>
        let v := eval vm_compute in (Z.of_N (N_of_ascii a)) in
        change (Z.of_N (N_of_ascii a)) with v
    end; lia.
Qed.

Lemma decimal_digits_value (u : Decimal.uint) :
  digits_value (js (NilEmpty.string_of_uint u)) = Z.of_N (Pos.of_uint u).
Proof.
  unfold digits_value. induction u; simpl NilEmpty.string_of_uint;
    try reflexivity;
    rewrite js_cons by reflexivity; cbn [fold_left Pos.of_uint];
    try exact IHu;
    apply decimal_digits_acc.
Qed.

Lemma decimal_digits_are_digits (u : Decimal.uint) :
  all_digits (js (NilEmpty.string_of_uint u)) = true.
Proof.
  induction u; simpl NilEmpty.string_of_uint; try reflexivity;
    rewrite js_cons by reflexivity; simpl; exact IHu.
Qed.

Lemma positive_digits (p : positive) :
  NilZero.string_of_uint (Pos.to_uint p) = NilEmpty.string_of_uint (Pos.to_uint p) /\
  js (NilEmpty.string_of_uint (Pos.to_uint p)) <> [] /\
  digits_value (js (NilEmpty.string_of_uint (Pos.to_uint p))) = Z.pos p.
Proof.
  pose proof (DecimalPos.Unsigned.to_uint_nonnil p) as Hnil.
  pose proof (DecimalPos.Unsigned.of_to p) as Hback.
  rewrite decimal_digits_value, Hback.
  destruct (Pos.to_uint p); try congruence;
    (split; [reflexivity | split; [|reflexivity]]);
    simpl NilEmpty.string_of_uint; rewrite js_cons by reflexivity; discriminate.
Qed.

Lemma number_to_string_exact (z : Z) :
  Z.abs z <= exact_limit ->
  number_to_string (Int z) = js (NilZero.string_of_int (Z.to_int z)).
Proof.
  intros H. apply Z.leb_le in H. unfold number_to_string. fold exact_limit.
  rewrite H. reflexivity.
Qed.

Lemma parseInt_of_integer (z : Z) :
  - exact_limit <= z <= exact_limit ->
  parseInt (VNum (Int z)) = Normal (Int z).
Proof.
  intros [Hlo Hhi]. unfold parseInt.
  change (ToString (VNum (Int z))) with (Normal (number_to_string (Int z))).
  rewrite number_to_string_exact by lia.
  unfold cbind. f_equal.
  destruct z as [|p|p].
  - reflexivity.
  - simpl Z.to_int. simpl NilZero.string_of_int.
    destruct (positive_digits p) as [-> [Hne Hvalue]].
    rewrite <- (app_nil_r (js _)).
    rewrite parseInt10_digits; try assumption; try reflexivity.
    + rewrite Hvalue. reflexivity.
    + apply decimal_digits_are_digits.
    + rewrite Hvalue. exact Hhi.
  - simpl Z.to_int. simpl NilZero.string_of_int.
    destruct (positive_digits p) as [-> [Hne Hvalue]].
    rewrite js_cons by reflexivity.
    change (N_of_ascii "-") with 45%N.
    assert (Hrange : 0 < digits_value (js (NilEmpty.string_of_uint (Pos.to_uint p)))
                     <= exact_limit) by (rewrite Hvalue; lia).
    pose proof (parseInt10_negative [] _ [] eq_refl Hne
                  (decimal_digits_are_digits (Pos.to_uint p)) eq_refl Hrange) as Hparse.
    cbn [app] in Hparse. rewrite app_nil_r in Hparse.
    rewrite Hparse, Hvalue. reflexivity.
Qed.

(** Beyond 2^53 a number is printed with its shortest digits, and from
    10^21 on with an exponent, of which [parseInt] reads the digits before
    the point: the identifier [1e21] of a JSON body resolves to 1. *)
Lemma number_to_string_large :
  number_to_string (Int (2 ^ 64)) = js "18446744073709552000" /\
  number_to_string (Int (10 ^ 21)) = js "1e+21" /\
  number_to_string (Int (- (15 * 10 ^ 20))) = js "-1.5e+21" /\
  getId (only_body (VObj [field "id" (num (10 ^ 21))])) = Normal (num 1).
Proof. vm_compute. repeat split; reflexivity. Qed.

Lemma ToString_strings (l : list jsstring) :
  ToString (VArr (map VStr l)) = Normal (joined l).
Proof.
  induction l as [|x rest IH]; [reflexivity|].
  destruct rest as [|y rest]; [reflexivity|].
  change (ToString (VArr (map VStr (x :: y :: rest))))
    with (cbind (ToString (VArr (map VStr (y :: rest))))
                (fun sr => Normal (x ++ js "," ++ sr))).
  rewrite IH. reflexivity.
Qed.

Lemma joined_first (ds : jsstring) (more : list jsstring) :
  exists rest, joined (ds :: more) = ds ++ rest /\ take_digits rest = [].
Proof.
  destruct more as [|y more]; simpl.
  - exists []. rewrite app_nil_r. split; reflexivity.
  - eexists. split; reflexivity.
Qed.

(** X21.  An identifier given as a JSON integer of at most 2^53 in
    magnitude is written and read back unchanged: [getId] resolves [7] to
    7 and [-7] to -7. *)
Theorem getId_numeric_identifier (req : request) (z : Z) :
  first_present (id_locations req) = Some (VNum (Int z)) ->
  - exact_limit <= z <= exact_limit ->
  getId req = Normal (num z).
Proof.
  intros Hraw Hrange. rewrite getId_resolve, Hraw. unfold resolve.
  rewrite (parseInt_of_integer z Hrange). reflexivity.
Qed.

(** X22.  An identifier that arrives as an array of strings, as a repeated
    [?id=5&id=6] does, is joined with commas and resolved as that one
    string.  So when the first element is a non-empty string of base-10
    digits that denote an integer of at most 2^53, that integer is the
    identifier, whatever the other elements are. *)
Theorem getId_repeated_identifier (req : request) (l : list jsstring) :
  first_present (id_locations req) = Some (VArr (map VStr l)) ->
  getId req = resolve (Some (VStr (joined l))) /\
  (forall (ds : jsstring) (more : list jsstring),
      l = ds :: more ->
      ds <> [] ->
      all_digits ds = true ->
      digits_value ds <= exact_limit ->
      getId req = Normal (num (digits_value ds))).
Proof.
  intros Hraw.
  assert (Hjoined : getId req = resolve (Some (VStr (joined l)))).
  { rewrite getId_resolve, Hraw. unfold resolve, parseInt.
    rewrite ToString_strings. reflexivity. }
  split; [exact Hjoined|].
  intros ds more -> Hne Hds Hle. rewrite Hjoined. unfold resolve, parseInt.
  cbn [ToString cbind].
  destruct (joined_first ds more) as [rest [-> Hrest]].
  rewrite (parseInt10_digits ds rest Hne Hds Hrest Hle). reflexivity.
Qed.

(* ================================================================= *)
(** ** The theorems at concrete requests *)

#[local] Existing Instance Mem.pool.

Lemma postUsers_blank_name_rejected_witness :
  opt_prop (body blank_user) "name" = Normal (str "  ") /\
  absent_or_blank (str "  ") /\
  Part000.postUsers blank_user (Mem.start Mem.empty)
    = respond 400 (failure_body "Nombre no válido") (Mem.start Mem.empty) /\
  Part001.postUsers blank_user (Mem.start Mem.empty)
    = respond 400 (failure_body "Nombre no válido") (Mem.start Mem.empty).
Proof.
  assert (Hblank : absent_or_blank (str "  ")).
  { right; right. exists (js "  "). split; reflexivity. }
  split; [reflexivity|]. split; [exact Hblank|].
  exact (postUsers_blank_name_rejected blank_user (str "  ") (Mem.start Mem.empty)
                                       eq_refl Hblank).
Defined.

Lemma updateUserHandler_result_policy_witness :
  getId rename_user = Normal (num 1) /\
  opt_prop (body rename_user) "name" = Normal (str " Ana ") /\
  trim (js " Ana ") <> [] /\
  (exists w',
      Part000.updateUserHandler rename_user (Mem.start one_user)
        = respond 200
            (updated_body (Mem.user_json {| Mem.user_id := 1; Mem.user_name := js "Ana" |}))
            w') /\
  (exists w',
      Part000.updateUserHandler rename_user (Mem.start Mem.empty)
        = respond 404 (failure_body "Usuario no encontrado") w') /\
  (exists w',
      Part001.updateUserHandler rename_user (Mem.start (Mem.unreachable "gone away" one_user))
        = respond 500 (failure_body "Error interno") w').
Proof.
  assert (Hname : trim (js " Ana ") <> []) by (vm_compute; discriminate).
  split; [vm_compute; reflexivity|]. split; [reflexivity|]. split; [exact Hname|].
  split; [|split].
  - destruct (updateUserHandler_result_policy
                rename_user (Int 1) (js " Ana ") (Mem.start one_user)
                eq_refl eq_refl Hname) as [Hone _].
    destruct (Hone _ _ _ _ _ eq_refl eq_refl eq_refl eq_refl) as [Hrun _].
    eexists. exact Hrun.
  - destruct (updateUserHandler_result_policy
                rename_user (Int 1) (js " Ana ") (Mem.start Mem.empty)
                eq_refl eq_refl Hname) as [_ [Hzero _]].
    destruct (Hzero _ _ eq_refl eq_refl) as [Hrun _].
    eexists. exact Hrun.
  - destruct (updateUserHandler_result_policy
                rename_user (Int 1) (js " Ana ")
                (Mem.start (Mem.unreachable "gone away" one_user))
                eq_refl eq_refl Hname) as [_ [_ [Hfail _]]].
    destruct (Hfail _ _ eq_refl) as [_ Hrun].
    eexists. exact Hrun.
Defined.

Lemma healthz_probe_witness :
  (exists w',
      Part001.healthz (only_body VUndefined) (Mem.start Mem.empty)
        = respond 200 (VObj [field "ok" (VBool true)]) w') /\
  (exists w',
      Part001.healthz (only_body VUndefined)
                      (Mem.start (Mem.unreachable "connect ECONNREFUSED" Mem.empty))
        = respond 503 (VObj [field "ok" (VBool false)]) w').
Proof.
  split.
  - eexists.
    exact (proj1 (healthz_probe (pool := Mem.pool)
                                (only_body VUndefined) (Mem.start Mem.empty))
                 _ _ _ _ eq_refl eq_refl eq_refl eq_refl).
  - eexists.
    exact (proj2 (healthz_probe (pool := Mem.pool)
                    (only_body VUndefined)
                    (Mem.start (Mem.unreachable "connect ECONNREFUSED" Mem.empty)))
                 _ _ eq_refl).
Defined.

Lemma put_patch_same_handler_witness :
  Part001.app (with_method PUT rename_user_request) (Mem.start one_user)
    = Part001.app (with_method PATCH rename_user_request) (Mem.start one_user) /\
  In {| route_method := PATCH; route_at := WithOptionalId ["users"%string];
        route_handler := Part000.updateUserHandler |} Part000.routes /\
  route_handler {| route_method := PATCH; route_at := WithOptionalId ["users"%string];
                   route_handler := Part000.updateUserHandler |}
    = Part000.updateUserHandler (pool := Mem.pool) /\
  same_segment "users" (js "Users") = true /\
  Part001.app capital_rename_request (Mem.start one_user)
    = answered_by (Part001.updateUserHandler rename_user (Mem.start one_user)) /\
  fst (Part001.app capital_rename_request (Mem.start one_user))
    = Normal (Some {| status := 200;
                      payload := updated_body
                                   (VObj [field "id" (num 1); field "name" (str "Ana")]) |}).
Proof.
  assert (Hin : In {| route_method := PATCH; route_at := WithOptionalId ["users"%string];
                      route_handler := Part000.updateUserHandler |} Part000.routes).
  { right; right; right; left. reflexivity. }
  assert (Hu : same_segment "users" (js "Users") = true) by (vm_compute; reflexivity).
  destruct (put_patch_same_handler (pool := Mem.pool))
    as [Hsame [Hbound [_ [Hreach _]]]].
  pose proof (proj2 (proj1 (Hreach PATCH (js "Users") []
                                   (VObj [field "name" (str " Ana ")])
                                   (Mem.start one_user) (or_intror eq_refl) Hu)
                           (js "1"))) as Hrun.
  change (Part001.app capital_rename_request (Mem.start one_user)
          = answered_by (Part001.updateUserHandler rename_user (Mem.start one_user)))
    in Hrun.
  split; [exact (proj2 (Hsame rename_user_request (Mem.start one_user)))|].
  split; [exact Hin|].
  split; [exact (proj2 (Hbound _ Hin (or_intror eq_refl)))|].
  split; [exact Hu|].
  split; [exact Hrun|].
  rewrite Hrun. vm_compute. reflexivity.
Defined.

Lemma getId_leading_digits_witness :
  first_present (id_locations (only_path_id lenient_id)) = Some (VStr (js "7" ++ js "abc")) /\
  js "7" <> [] /\
  all_digits (js "7") = true /\
  starts_with_non_digit (js "abc") = true /\
  digits_value (js "7") <= exact_limit /\
  getId (only_path_id lenient_id) = Normal (num 7) /\
  getId (only_path_id decimal_id) = Normal (num 7).
Proof.
  assert (Hne : js "7" <> []) by (vm_compute; discriminate).
  assert (Hle : digits_value (js "7") <= exact_limit) by (vm_compute; discriminate).
  split; [reflexivity|]. split; [exact Hne|]. split; [reflexivity|].
  split; [reflexivity|]. split; [exact Hle|]. split.
  - exact (proj1 (getId_leading_digits (pool := Mem.pool)
                    (only_path_id lenient_id) (js "7") (js "abc") (Mem.start Mem.empty)
                    eq_refl Hne eq_refl eq_refl Hle)).
  - exact (proj1 (getId_leading_digits (pool := Mem.pool)
                    (only_path_id decimal_id) (js "7") (js ".9") (Mem.start Mem.empty)
                    eq_refl Hne eq_refl eq_refl Hle)).
Defined.

(** C3, the claim as it stands fails: with the database unreachable, the
    list of users of part_001 answers 500 and nothing is written to the
    console, and the list of users of part_000 returns the driver's
    message to the client. *)
Lemma storage_failure_not_as_claimed :
  (exists w',
      Part001.getUsers (only_body VUndefined) unreachable_world
        = respond 500 (VObj [field "error" (str "Error interno")]) w' /\
      rejected w' = [refused] /\
      console w' = []) /\
  (exists w',
      Part000.getUsers (only_body VUndefined) unreachable_world
        = respond 500
            (VObj [field "error"
                     (str "Error de conexión: connect ECONNREFUSED 127.0.0.1:3306")])
            w' /\
      rejected w' = [refused] /\
      console w' = []).
Proof.
  split; eexists; (split; [vm_compute; reflexivity | split; reflexivity]).
Qed.

Lemma storage_failure_response_witness :
  In (Resources.getResources,
      {| status := 500; payload := message_body "Error al obtener los recursos" |},
      Some "Error al obtener recursos:"%string) failure_responses /\
  exists w',
    Resources.getResources (only_body VUndefined) unreachable_world
      = respond 500 (message_body "Error al obtener los recursos") w' /\
    rejected w' = [refused] /\
    console w' = [("Error al obtener recursos:"%string, refused)].
Proof.
  assert (Hin : In (Resources.getResources,
                    {| status := 500;
                       payload := message_body "Error al obtener los recursos" |},
                    Some "Error al obtener recursos:"%string) failure_responses).
  { do 8 right. left. reflexivity. }
  split; [exact Hin|].
  destruct (storage_failure_response _ _ _ (only_body VUndefined) unreachable_world Hin)
    as [r [w' [Hrun Hpolicy]]].
  assert (Hrejected : rejected w' = [refused]).
  { vm_compute in Hrun. injection Hrun as _ <-. reflexivity. }
  destruct Hpolicy as [Hnone | [e [Hone [-> [_ Hconsole]]]]].
  - rewrite Hrejected in Hnone. discriminate Hnone.
  - exists w'. split; [exact Hrun|]. split; [exact Hrejected|].
    rewrite Hrejected in Hone. injection Hone as <-. exact Hconsole.
Defined.

Lemma postResources_defaults_witness :
  Mem.failure Mem.empty = None /\
  exists w',
    Resources.postResources minimal_resource (Mem.start Mem.empty)
      = respond 201
          (VObj [field "id" (num 1); field "title" (str "A");
                 field "description" (VStr []); field "url" (str "http://x");
                 field "type" (str "Otro"); field "platform" (str "Otro");
                 field "created_at" (num 0)])
          w'.
Proof.
  split; [reflexivity|].
  destruct (proj2 postResources_defaults Mem.empty eq_refl) as [w' [Hrun _]].
  exists w'. exact Hrun.
Defined.

(* ================================================================= *)
(** ** The further theorems at concrete requests *)

Lemma handler_statuses_witness :
  In (Part001.healthz, [200; 503], 1%nat) handler_contracts /\
  exists r w',
    Part001.healthz (only_body VUndefined) unreachable_world = (Normal r, w') /\
    In (status r) [200; 503].
Proof.
  assert (Hin : In (Part001.healthz, [200; 503], 1%nat) handler_contracts).
  { do 4 right. left. reflexivity. }
  split; [exact Hin|].
  exact (handler_statuses _ _ _ (only_body VUndefined) unreachable_world Hin).
Defined.

Lemma refusal_changes_nothing_witness :
  In (Part000.deleteUsers, [200; 400; 404; 500], 1%nat) handler_contracts /\
  Part000.deleteUsers (only_body VUndefined) (Mem.start one_user)
    = respond 400 (failure_body "ID no proporcionado")
        (snd (Part000.deleteUsers (only_body VUndefined) (Mem.start one_user))) /\
  snd (Part000.deleteUsers (only_body VUndefined) (Mem.start one_user))
    = Mem.start one_user.
Proof.
  assert (Hin : In (Part000.deleteUsers, [200; 400; 404; 500], 1%nat) handler_contracts).
  { do 3 right. left. reflexivity. }
  assert (Hrun : Part000.deleteUsers (only_body VUndefined) (Mem.start one_user)
                 = respond 400 (failure_body "ID no proporcionado")
                     (snd (Part000.deleteUsers (only_body VUndefined)
                                               (Mem.start one_user))))
    by (vm_compute; reflexivity).
  split; [exact Hin|]. split; [exact Hrun|].
  exact (refusal_changes_nothing _ _ _ _ _ _ _ Hin Hrun eq_refl).
Defined.

Lemma statements_are_bounded_witness :
  In (Part001.updateUserHandler, [200; 400; 404; 500], 2%nat) handler_contracts /\
  exists sent,
    issued (snd (Part001.updateUserHandler rename_user (Mem.start one_user)))
      = issued (Mem.start one_user) ++ sent /\
    (List.length sent <= 2)%nat.
Proof.
  assert (Hin : In (Part001.updateUserHandler, [200; 400; 404; 500], 2%nat)
                   handler_contracts).
  { do 7 right. left. reflexivity. }
  split; [exact Hin|].
  refine (statements_are_bounded _ _ _ rename_user (Mem.start one_user)
            (snd (Part001.updateUserHandler rename_user (Mem.start one_user)))
            {| status := 200;
               payload := updated_body
                            (Mem.user_json {| Mem.user_id := 1;
                                              Mem.user_name := js "Ana" |}) |}
            Hin _).
  vm_compute. reflexivity.
Defined.

Lemma postUsers_result_policy_witness :
  opt_prop (body (only_body (VObj [field "name" (str " Ana ")]))) "name"
    = Normal (str " Ana ") /\
  trim (js " Ana ") <> [] /\
  exists w',
    Part000.postUsers (only_body (VObj [field "name" (str " Ana ")])) (Mem.start Mem.empty)
      = respond 200 (success_body "Usuario agregado correctamente") w'.
Proof.
  assert (Hname : trim (js " Ana ") <> []) by (vm_compute; discriminate).
  split; [reflexivity|]. split; [exact Hname|].
  destruct (postUsers_result_policy
              (only_body (VObj [field "name" (str " Ana ")])) (js " Ana ")
              (Mem.start Mem.empty) eq_refl Hname) as [Hone _].
  destruct (Hone _ _ eq_refl eq_refl) as [Hrun _].
  eexists. exact Hrun.
Defined.

Lemma update_validation_order_witness :
  getId (only_body (VObj [field "name" (str "Ana")])) = Normal VNull /\
  body_name (only_body (VObj [field "name" (str "Ana")])) = Normal (str "Ana") /\
  Part000.updateUserHandler (only_body (VObj [field "name" (str "Ana")]))
                            (Mem.start one_user)
    = respond 400 (failure_body "ID no proporcionado") (Mem.start one_user).
Proof.
  split; [vm_compute; reflexivity|]. split; [vm_compute; reflexivity|].
  destruct (update_validation_order
              (only_body (VObj [field "name" (str "Ana")])) (Mem.start one_user))
    as [Hid _].
  assert (H0 : getId (only_body (VObj [field "name" (str "Ana")])) = Normal VNull)
    by (vm_compute; reflexivity).
  assert (H1 : body_name (only_body (VObj [field "name" (str "Ana")]))
               = Normal (str "Ana")) by (vm_compute; reflexivity).
  exact (proj1 (Hid _ H0 H1)).
Defined.

Lemma non_string_name_is_a_server_error_witness :
  opt_prop (body number_name) "name" = Normal (num 5) /\
  truthy_non_string (num 5) /\
  Part001.updateUserHandler number_name (Mem.start one_user)
    = respond 500 (failure_body "Error interno") (Mem.start one_user).
Proof.
  assert (Hkind : truthy_non_string (num 5)).
  { split; [reflexivity | intros s H; discriminate H]. }
  split; [reflexivity|]. split; [exact Hkind|].
  exact (proj2 (proj2 (proj2 (non_string_name_is_a_server_error
                                number_name (num 5) (Mem.start one_user)
                                eq_refl Hkind)))).
Defined.

Lemma lists_return_the_rows_witness :
  exists w',
    Part001.getUsers (only_body VUndefined) (Mem.start one_user)
      = respond 200
          (VArr [Mem.user_json {| Mem.user_id := 1; Mem.user_name := js "Eva" |}]) w'.
Proof.
  destruct (lists_return_the_rows (only_body VUndefined) (Mem.start one_user)
              (VArr [Mem.user_json {| Mem.user_id := 1; Mem.user_name := js "Eva" |}])
              one_user) as [Husers _].
  eexists. exact (proj2 (Husers eq_refl)).
Defined.

Lemma delete_not_found_rule_witness :
  (exists w',
      Part000.deleteUsers (only_path_id (js "1")) (Mem.start Mem.empty)
        = respond 404 (failure_body "Usuario no encontrado") w') /\
  (exists w',
      Resources.deleteResources (only_path_id (js "1")) (Mem.start one_resource)
        = respond 200 (message_body "Recurso eliminado correctamente") w').
Proof.
  split.
  - destruct (delete_not_found_rule
                (only_path_id (js "1")) (Int 1) (Mem.start Mem.empty)
                (Mem.header 0 0) (num 0) Mem.empty eq_refl) as [Husers _].
    assert (Hid : getId (only_path_id (js "1")) = Normal (VNum (Int 1)))
      by (vm_compute; reflexivity).
    eexists. exact (proj1 (Husers Hid eq_refl eq_refl)).
  - assert (Hid : parseInt (member (params (only_path_id (js "1"))) "id")
                  = Normal (Int 1)) by (vm_compute; reflexivity).
    assert (Hnan : Int 1 <> NaN) by discriminate.
    destruct (delete_not_found_rule
                (only_path_id (js "1")) (Int 1) (Mem.start one_resource)
                (Mem.header 1 0) (num 1)
                (Mem.with_resources one_resource [] 2) eq_refl) as [_ Hres].
    eexists. exact (Hres Hid Hnan eq_refl eq_refl).
Defined.

Lemma resource_insert_values_witness :
  optional_value (member [field "title" (str "A"); field "url" (str "http://x");
                          field "type" (str "  ")] "type") "Otro" [] /\
  exists r w' more,
    Resources.postResources spaces_type_resource (Mem.start Mem.empty) = (Normal r, w') /\
    status r <> 400 /\
    issued w' = issued (Mem.start Mem.empty)
                ++ statement_of Query Resources.INSERT
                     [str "A"; VStr []; str "http://x"; VStr []; str "Otro"] :: more.
Proof.
  assert (Htype : optional_value
                    (member [field "title" (str "A"); field "url" (str "http://x");
                             field "type" (str "  ")] "type") "Otro" []).
  { right. exists (js "  "). split; [reflexivity|]. split; [discriminate | reflexivity]. }
  split; [exact Htype|].
  refine (resource_insert_values spaces_type_resource
            [field "title" (str "A"); field "url" (str "http://x");
             field "type" (str "  ")]
            (js "A") (js "http://x") [] [] (js "Otro") (Mem.start Mem.empty)
            eq_refl eq_refl _ eq_refl _ _ Htype _);
    try discriminate; left; split; reflexivity.
Defined.

Lemma missing_body_witness :
  body (only_body VUndefined) = VUndefined /\
  Part001.postUsers (only_body VUndefined) (Mem.start Mem.empty)
    = respond 400 (failure_body "Nombre no válido") (Mem.start Mem.empty) /\
  exists e,
    Resources.postResources (only_body VUndefined) (Mem.start Mem.empty)
      = respond 500 (message_body "Error al crear el recurso")
          (logged (Mem.start Mem.empty) "Error al crear recurso:" e).
Proof.
  split; [reflexivity|].
  destruct (missing_body (only_body VUndefined) (Mem.start Mem.empty) eq_refl)
    as [Hres [_ Husers]].
  split; [exact Husers | exact Hres].
Defined.

Lemma getId_negative_identifier_witness :
  first_present (id_locations (only_path_id negative_id))
    = Some (VStr (js " " ++ 45%N :: js "5" ++ js "px")) /\
  all_white_space (js " ") = true /\
  0 < digits_value (js "5") <= exact_limit /\
  getId (only_path_id negative_id) = Normal (num (-5)).
Proof.
  assert (Hne : js "5" <> []) by (vm_compute; discriminate).
  assert (Hrange : 0 < digits_value (js "5") <= exact_limit)
    by (split; vm_compute; [reflexivity | discriminate]).
  split; [reflexivity|]. split; [reflexivity|]. split; [exact Hrange|].
  exact (proj1 (getId_negative_identifier
                  (only_path_id negative_id) (js " ") (js "5") (js "px")
                  (Mem.start Mem.empty) eq_refl eq_refl Hne eq_refl eq_refl Hrange)).
Defined.

Lemma unreadable_identifier_is_final_witness :
  first_present (id_locations empty_query_id) = Some (VStr []) /\
  no_numeral [] /\
  Part000.deleteUsers empty_query_id (Mem.start one_user)
    = respond 400 (failure_body "ID no proporcionado") (Mem.start one_user).
Proof.
  assert (Hnone : no_numeral []) by reflexivity.
  split; [reflexivity|]. split; [exact Hnone|].
  exact (proj1 (proj2 (unreadable_identifier_is_final
                         empty_query_id [] (Mem.start one_user) eq_refl Hnone))).
Defined.

Lemma resources_fallback_witness :
  method (with_method PATCH rename_user_request) = PATCH /\
  ServerApp.app (with_method PATCH rename_user_request) (Mem.start one_resource)
    = respond 404 (message_body "Ruta no encontrada") (Mem.start one_resource) /\
  same_segment "api" (js "API") = true /\
  same_segment "resources" (js "Resources") = true /\
  ServerApp.app (resources_request DELETE [js "API"; js "Resources"])
                (Mem.start one_resource)
    = respond 404 (message_body "Ruta no encontrada") (Mem.start one_resource) /\
  method (resources_request HEAD [js "api"; js "users"]) <> OPTIONS /\
  path (resources_request HEAD [js "api"; js "users"]) <> [] /\
  ServerApp.app (resources_request HEAD [js "api"; js "users"]) (Mem.start one_resource)
    = respond 404 VUndefined (Mem.start one_resource).
Proof.
  assert (Ha : same_segment "api" (js "API") = true) by (vm_compute; reflexivity).
  assert (Hb : same_segment "resources" (js "Resources") = true)
    by (vm_compute; reflexivity).
  assert (Hm : method (resources_request HEAD [js "api"; js "users"]) <> OPTIONS)
    by discriminate.
  assert (Hp : path (resources_request HEAD [js "api"; js "users"]) <> [])
    by discriminate.
  assert (Hout : forall a b rest,
             path (resources_request HEAD [js "api"; js "users"]) = a :: b :: rest ->
             same_segment "api" a && same_segment "resources" b = false).
  { intros a b rest H. injection H as <- <- _. vm_compute. reflexivity. }
  split; [reflexivity|].
  split; [exact (proj1 (resources_fallback (with_method PATCH rename_user_request)
                                           (Mem.start one_resource))
                       (or_intror eq_refl))|].
  split; [exact Ha|]. split; [exact Hb|].
  split; [exact (proj1 (proj2 (resources_fallback
                                 (resources_request DELETE [js "API"; js "Resources"])
                                 (Mem.start one_resource)))
                       _ _ eq_refl eq_refl Ha Hb)|].
  split; [exact Hm|]. split; [exact Hp|].
  exact (proj2 (proj2 (resources_fallback
                         (resources_request HEAD [js "api"; js "users"])
                         (Mem.start one_resource)))
               Hm Hp Hout).
Defined.

Lemma db_port_agreement_witness :
  empty_environment "DB_PORT"%string = None /\
  Config001.DB_PORT empty_environment = Normal (Int 3306) /\
  ConfigServer.port empty_environment = Normal (Int 3306).
Proof.
  destruct (db_port_agreement empty_environment) as [Hsame [Hunset _]].
  split; [reflexivity|]. split; [exact (Hunset (or_introl eq_refl))|].
  rewrite Hsame. exact (Hunset (or_introl eq_refl)).
Defined.

Lemma startup_checks_witness :
  Forall (is_set database_environment) required_variables /\
  Config001.check database_environment required_variables = Continue /\
  Config001.check no_password_environment required_variables
    = Exit 1 (js "Falta la variable de entorno: DB_PASS") /\
  exists k, In k required_variables /\ ~ is_set no_password_environment k.
Proof.
  assert (Hall : Forall (is_set database_environment) required_variables).
  { repeat constructor; eexists; (split; [reflexivity | discriminate]). }
  split; [exact Hall|].
  split; [exact (proj2 (proj1 (startup_checks database_environment)) Hall)|].
  assert (Hexit : Config001.check no_password_environment required_variables
                  = Exit 1 (js "Falta la variable de entorno: DB_PASS"))
    by (vm_compute; reflexivity).
  split; [exact Hexit|].
  destruct (proj2 (proj2 (startup_checks no_password_environment)) _ _ Hexit)
    as [_ [k [rest [Hin [Hunset _]]]]].
  exists k. split; assumption.
Defined.

Lemma port_defaults_witness :
  set_variable "PORT" [] empty_environment "PORT"%string = Some [] /\
  Config000.PORT (Config000.read (set_variable "PORT" [] empty_environment)) = VStr [] /\
  Config001.PORT (set_variable "PORT" [] empty_environment) = num 3000.
Proof.
  split; [reflexivity|].
  destruct (port_defaults (set_variable "PORT" [] empty_environment))
    as [_ [_ [_ Hset]]].
  split; [exact (Hset [] eq_refl) | reflexivity].
Defined.

Lemma cors_origins_witness :
  Config001.cors_origin two_origins_environment
    = Normal (Some [js "https://a.example"; js "https://b.example"]) /\
  exists s,
    two_origins_environment "FRONT_ORIGIN"%string = Some s /\
    List.length [js "https://a.example"; js "https://b.example"]
      = S (count_occ N.eq_dec s 44%N).
Proof.
  assert (Hrun : Config001.cors_origin two_origins_environment
                 = Normal (Some [js "https://a.example"; js "https://b.example"]))
    by (vm_compute; reflexivity).
  split; [exact Hrun|].
  destruct (proj2 (cors_origins two_origins_environment) _ Hrun) as [s [Hs [Hlen _]]].
  exists s. split; assumption.
Defined.

Lemma getId_numeric_identifier_witness :
  first_present (id_locations body_number_id) = Some (VNum (Int 7)) /\
  - exact_limit <= 7 <= exact_limit /\
  getId body_number_id = Normal (num 7).
Proof.
  assert (Hrange : - exact_limit <= 7 <= exact_limit)
    by (split; vm_compute; discriminate).
  split; [reflexivity|]. split; [exact Hrange|].
  exact (getId_numeric_identifier body_number_id 7 eq_refl Hrange).
Defined.

Lemma getId_repeated_identifier_witness :
  first_present (id_locations repeated_query_id)
    = Some (VArr (map VStr [js "5"; js "6"])) /\
  js "5" <> [] /\
  all_digits (js "5") = true /\
  digits_value (js "5") <= exact_limit /\
  getId repeated_query_id = resolve (Some (str "5,6")) /\
  getId repeated_query_id = Normal (num 5).
Proof.
  assert (Hne : js "5" <> []) by (vm_compute; discriminate).
  assert (Hle : digits_value (js "5") <= exact_limit) by (vm_compute; discriminate).
  destruct (getId_repeated_identifier repeated_query_id [js "5"; js "6"] eq_refl)
    as [Hjoined Hfirst].
  split; [reflexivity|]. split; [exact Hne|]. split; [reflexivity|].
  split; [exact Hle|]. split; [exact Hjoined|].
  exact (Hfirst (js "5") [js "6"] eq_refl Hne eq_refl Hle).
Defined.
